(** * Rackspace Monitoring driver: a shallow embedding

    The development follows [rackspace_monitoring/drivers/rackspace.py]:
    the response decoder ([RackspaceMonitoringResponse]), the connection
    wrapper ([RackspaceMonitoringConnection.request]), the pagination
    engine ([_get_more]), the location resolver ([_url_to_obj_ids]), the
    create / update helpers and the cascading entity delete.

    Python dictionaries are finite maps ([gmap]), Python values that can
    travel through JSON are the type [json], exceptions are the type
    [exn], and every call into the HTTP transport is recorded in a trace
    kept beside the state of the remote service. *)

From stdpp Require Import gmap strings list fin_maps.
From Stdlib Require Import Ascii String ZArith.

#[local] Set Warnings "-register-all".
#[local] Open Scope string_scope.
#[local] Open Scope Z_scope.

(** ** Python values *)

(** Values as [json.loads] produces them; [JNull] is Python's [None]. *)
Inductive json : Type :=
| JNull
| JBool (b : bool)
| JNum (z : Z)
| JStr (s : string)
| JArr (l : list json)
| JObj (o : gmap string json).

(** [v == None] for a decoded value. *)
Definition is_None (v : json) : bool :=
  match v with JNull => true | _ => false end.

(** Python truthiness, as tested by [if v:] and [if not v:]. *)
Definition truthy (v : json) : bool :=
  match v with
  | JNull => false
  | JBool b => b
  | JNum z => negb (z =? 0)
  | JStr s => negb (String.eqb s "")
  | JArr l => match l with [] => false | _ :: _ => true end
  | JObj o => match map_to_list o with [] => false | _ :: _ => true end
  end.

(** [v == s] for a string literal [s]. *)
Definition eq_str (v : json) (s : string) : bool :=
  match v with JStr t => String.eqb t s | _ => false end.

(** ** Exceptions and outcomes *)

Inductive exn : Type :=
| KeyError (key : string)
| IndexError
| TypeError
| AttributeError
| ValueError
| LibcloudError (value : string)
| MalformedResponseError (value : string) (body : string)
| RackspaceMonitoringValidationError (code type message details : json)
| Exception (arg : json).

(** What running a piece of driver code gives: a value, a raised
    exception, or no answer within the fuel given to its loops. *)
Inductive outcome (A : Type) : Type :=
| Return (a : A)
| Raise (e : exn)
| OutOfFuel.
Arguments Return {A} a.
Arguments Raise {A} e.
Arguments OutOfFuel {A}.

Definition obind {A B} (m : outcome A) (k : A -> outcome B) : outcome B :=
  match m with
  | Return a => k a
  | Raise e => Raise e
  | OutOfFuel => OutOfFuel
  end.

Notation "'try!' x ':=' m 'in' k" := (obind m (fun x => k))
  (at level 10, x pattern, m at level 100, k at level 200).

(** A list comprehension [[f(x) for x in l]] whose [f] may raise. *)
Fixpoint omap {A B} (f : A -> outcome B) (l : list A) : outcome (list B) :=
  match l with
  | [] => Return []
  | x :: l' =>
      try! y := f x in
      try! ys := omap f l' in
      Return (y :: ys)
  end.

(** [v[k]] on a decoded value: only objects can be indexed by a string. *)
Definition getitem (v : json) (k : string) : outcome json :=
  match v with
  | JObj o => match o !! k with Some x => Return x | None => Raise (KeyError k) end
  | _ => Raise TypeError
  end.

(** [v.get(k)]: [None] when the key is absent; only objects have [get]. *)
Definition get (v : json) (k : string) : outcome json :=
  match v with
  | JObj o => Return (default JNull (o !! k))
  | _ => Raise AttributeError
  end.

(** ** Strings *)

(** [s.split(sep)] for a one-character separator. *)
Fixpoint split (sep : ascii) (s : string) : list string :=
  match s with
  | EmptyString => [""]
  | String c s' =>
      if Ascii.eqb c sep then "" :: split sep s'
      else match split sep s' with
           | x :: xs => String c x :: xs
           | [] => [String c ""]
           end
  end.

(** [s.find(c) != -1] for a character [c]. *)
Fixpoint contains_char (c : ascii) (s : string) : bool :=
  match s with
  | EmptyString => false
  | String d s' => Ascii.eqb d c || contains_char c s'
  end.

(** [path.startswith(rp)]. *)
Definition startswith (s rp : string) : bool := String.prefix rp s.

(** [s[n:]]. *)
Fixpoint drop_chars (n : nat) (s : string) : string :=
  match n, s with
  | O, _ => s
  | S n', String _ s' => drop_chars n' s'
  | S _, EmptyString => ""
  end.

(** [p in s] for two strings: [p] occurs in [s]. *)
Fixpoint is_substring (p s : string) : bool :=
  String.prefix p s ||
  match s with
  | EmptyString => false
  | String _ s' => is_substring p s'
  end.

(** ['details' in v]: key membership for an object, element membership
    for a list, substring test for a string, a [TypeError] otherwise. *)
Definition contains (v : json) (k : string) : outcome bool :=
  match v with
  | JObj o => Return (bool_decide (is_Some (o !! k)))
  | JArr l => Return (existsb (fun x => eq_str x k) l)
  | JStr s => Return (is_substring k s)
  | _ => Raise TypeError
  end.

(** Iterating a decoded value: a list gives its elements, a string its
    characters, an object its keys (in the order of the map). *)
Definition iter (v : json) : outcome (list json) :=
  match v with
  | JArr l => Return l
  | JStr s => Return ((fun c => JStr (String c "")) <$> list_ascii_of_string s)
  | JObj o => Return ((fun kv => JStr kv.1) <$> map_to_list o)
  | _ => Raise TypeError
  end.

(** ** What the driver takes from Python and its libraries

    [json.loads] ([None] when it raises), [json.dumps],
    [urlparse.urlparse(url).path] and the conversion done by ['%s' % v]
    are not part of the driver; it is verified for every choice of them. *)
Class PyEnv : Type := {
  json_loads : string -> option json;
  json_dumps : json -> string;
  urlparse_path : string -> string;
  pct_s : json -> string
}.

(** HTTP status codes of [httplib]. *)
Definition OK : Z := 200.
Definition CREATED : Z := 201.
Definition NO_CONTENT : Z := 204.
Definition BAD_REQUEST : Z := 400.
Definition CONFLICT : Z := 409.

(** ** Response decoder: [RackspaceMonitoringResponse] *)

Record response : Type := {
  status : Z;
  headers : gmap string string;
  body : string
}.

Definition valid_response_codes : list Z := [CONFLICT].

Definition success (r : response) : bool :=
  let i := status r in
  ((200 <=? i) && (i <=? 299)) || bool_decide (i ∈ valid_response_codes).

Section Decoder.
Context `{PyEnv}.

Definition parse_body (r : response) : outcome json :=
  if String.eqb (body r) "" then Return JNull
  else
    try! key :=
      (if bool_decide (is_Some (headers r !! "content-type")) then Return "content-type"
       else if bool_decide (is_Some (headers r !! "Content-Type")) then Return "Content-Type"
       else Raise (LibcloudError "Missing content-type header")) in
    try! content_type :=
      (match headers r !! key with
       | Some v => Return v
       | None => Raise (KeyError key)
       end) in
    let content_type :=
      if contains_char ";" content_type
      then match split ";" content_type with x :: _ => x | [] => content_type end
      else content_type in
    if String.eqb content_type "application/json" then
      match json_loads (body r) with
      | Some data => Return data
      | None => Raise (MalformedResponseError "Failed to parse JSON" (body r))
      end
    else if String.eqb content_type "text/plain" then Return (JStr (body r))
    else Return (JStr (body r)).

Definition parse_error (r : response) : outcome json :=
  try! body := parse_body r in
  if status r =? BAD_REQUEST then
    try! message := getitem body "message" in
    try! code := getitem body "code" in
    try! type := getitem body "type" in
    try! details := getitem body "details" in
    Raise (RackspaceMonitoringValidationError code type message details)
  else Return body.
End Decoder.

(** ** The transport and the world the driver runs in *)

(** What reaches the base connection class: the arguments of
    [OpenStackBaseConnection.request]. *)
Record http_request : Type := {
  req_action : string;
  req_params : gmap string json;
  req_data : json;
  req_method : string;
  req_headers : gmap string string;
  req_raw : bool
}.

(** The base connection either hands back a response object or raises. *)
Inductive reply : Type :=
| Responded (r : response)
| Raised (e : exn).

(** The remote service behind the base connection: any state, any
    behaviour. *)
Class Service : Type := {
  svc : Type;
  base_request : http_request -> svc -> reply * svc
}.

(** ** Domain objects *)

(** Modelled from the spec: the classes [Entity], [Check] and [Alarm] of
    [rackspace_monitoring.base], which is not part of the sources at hand.
    The spec describes them as flat value records; the fields are the
    keyword arguments the driver's mappers construct them with (the
    back-reference to the driver is left out). *)
Module Entity.
Record t : Type := {
  id : json;
  label : json;
  extra : json;
  ip_addresses : list (string * json)
}.
End Entity.

Module Check.
Record t : Type := {
  id : json;
  label : json;
  timeout : json;
  period : json;
  monitoring_zones : json;
  target_alias : json;
  target_resolver : json;
  type : json;
  details : json;
  entity_id : json
}.
End Check.

Module Alarm.
Record t : Type := {
  id : json;
  type : json;
  criteria : json;
  notification_plan_id : json;
  entity_id : json
}.
End Alarm.

(** Modelled from the spec: [to_underscore_separated] of
    [rackspace_monitoring.utils], which is not part of the sources at hand.
    The spec only says that it converts a name to underscore-separated
    form: every upper-case letter becomes an underscore followed by the
    lower-case letter. *)
Definition is_upper (c : ascii) : bool :=
  (65 <=? nat_of_ascii c)%nat && (nat_of_ascii c <=? 90)%nat.

Definition to_lower (c : ascii) : ascii :=
  if is_upper c then ascii_of_nat (nat_of_ascii c + 32) else c.

Fixpoint to_underscore_separated (s : string) : string :=
  match s with
  | EmptyString => EmptyString
  | String c s' =>
      if is_upper c
      then String "_" (String (to_lower c) (to_underscore_separated s'))
      else String c (to_underscore_separated s')
  end.

Section Driver.
Context `{PyEnv} `{Service}.

(** Every exchange with the base connection is appended to [trace]. *)
Record world : Type := {
  trace : list (http_request * reply);
  server : svc
}.

(** Driver code: a function of the world that gives an outcome and the
    world after it. *)
Definition M (A : Type) : Type := world -> outcome A * world.

Definition ret {A} (a : A) : M A := fun w => (Return a, w).
Definition raise {A} (e : exn) : M A := fun w => (Raise e, w).
Definition out_of_fuel {A} : M A := fun w => (OutOfFuel, w).
Definition lift {A} (o : outcome A) : M A := fun w => (o, w).

Definition bind {A B} (m : M A) (k : A -> M B) : M B :=
  fun w =>
    match m w with
    | (Return a, w') => k a w'
    | (Raise e, w') => (Raise e, w')
    | (OutOfFuel, w') => (OutOfFuel, w')
    end.

(** [for x in l: body(x)]. *)
Fixpoint for_each {A} (l : list A) (body : A -> M unit) : M unit :=
  match l with
  | [] => ret tt
  | x :: l' => bind (body x) (fun _ => for_each l' body)
  end.

(** The call into the base class, recorded in the trace. *)
Definition super_request (r : http_request) : M response :=
  fun w =>
    let '(a, s) := base_request r (server w) in
    let w' := {| trace := trace w ++ [(r, a)]; server := s |} in
    match a with
    | Responded resp => (Return resp, w')
    | Raised e => (Raise e, w')
    end.

(** [RackspaceMonitoringConnection.request]. An absent or empty
    [headers] or [params] argument is replaced by an empty dictionary. *)
Definition request (action : string) (params : option (gmap string json))
    (data : json) (headers : option (gmap string string))
    (method : string) (raw : bool) : M response :=
  let headers := default ∅ headers in
  let params := default ∅ params in
  let headers := <["Accept" := "application/json"]> headers in
  let '(headers, data) :=
    if bool_decide (method ∈ ["POST"; "PUT"])
    then (<["Content-Type" := "application/json; charset=UTF-8"]> headers,
          JStr (json_dumps data))
    else (headers, data) in
  super_request {| req_action := action; req_params := params;
                   req_data := data; req_method := method;
                   req_headers := headers; req_raw := raw |}.

(** [json.loads] as the driver calls it outside any [try]. *)
Definition loads (s : string) : outcome json :=
  match json_loads s with
  | Some v => Return v
  | None => Raise ValueError
  end.

(** ** Pagination engine *)

(** The entries of [value_dict] that are data. A mapper receives them
    as its second argument. [start_marker] is [JNull] when the key is
    absent or bound to [None]: the driver only reads it with [get]. *)
Record fetch_ctx : Type := {
  url : string;
  params : option (gmap string json);
  start_marker : json;
  entity_id : option json
}.

(** [value_dict]: the data entries and the two mapper entries. *)
Record value_dict (T : Type) : Type := {
  ctx : fetch_ctx;
  list_item_mapper : option (json -> fetch_ctx -> outcome T);
  object_mapper : option (json -> fetch_ctx -> outcome (list T))
}.
Arguments ctx {T} _.
Arguments list_item_mapper {T} _.
Arguments object_mapper {T} _.

(** [params['marker'] = key] writes into the dictionary that
    [value_dict] holds under ['params'] when there is one; a default
    [{}] is a fresh object that [value_dict] never sees. *)
Definition store_params {T} (vd : value_dict T) (p : gmap string json)
    : value_dict T :=
  match params (ctx vd) with
  | Some _ =>
      {| ctx := {| url := url (ctx vd); params := Some p;
                   start_marker := start_marker (ctx vd);
                   entity_id := entity_id (ctx vd) |};
         list_item_mapper := list_item_mapper vd;
         object_mapper := object_mapper vd |}
  | None => vd
  end.

(** [_get_more]: the page, the next cursor and the exhausted flag,
    beside [value_dict] as the call leaves it. *)
Definition _get_more {T} (last_key : json) (value_dict0 : value_dict T)
    : world -> outcome (list T * json * bool) * value_dict T * world :=
  fun w =>
    let params0 := default ∅ (params (ctx value_dict0)) in
    let key :=
      if negb (truthy last_key) then start_marker (ctx value_dict0)
      else last_key in
    let '(params1, value_dict1) :=
      if truthy key
      then (<["marker" := key]> params0,
            store_params value_dict0 (<["marker" := key]> params0))
      else (params0, value_dict0) in
    let '(o, w') :=
      request (url (ctx value_dict1)) (Some params1) (JStr "") None "GET" false w in
    let result :=
      try! response := o in
      if status response =? NO_CONTENT then Return ([], JNull, false)
      else if status response =? OK then
        try! resp := loads (body response) in
        try! l :=
          (match list_item_mapper value_dict1 with
           | Some func =>
               try! values := getitem resp "values" in
               try! xs := iter values in
               omap (fun x => func x (ctx value_dict1)) xs
           | None =>
               match object_mapper value_dict1 with
               | Some func => func resp (ctx value_dict1)
               | None => Raise (KeyError "object_mapper")
               end
           end) in
        try! metadata := getitem resp "metadata" in
        try! m := get metadata "next_marker" in
        Return (l, m, is_None m)
      else
        try! body := loads (body response) in
        try! has_details := contains body "details" in
        try! details :=
          (if has_details : bool then getitem body "details"
           else Return (JStr "")) in
        Raise (LibcloudError
                 ("Unexpected status code: " ++ pct_s (JNum (status response))
                  ++ " (url=" ++ pct_s (JStr (url (ctx value_dict1)))
                  ++ ", details=" ++ pct_s details ++ ")")) in
    (result, value_dict1, w').

(** Modelled from the spec: [LazyList] of [libcloud.common.types], which
    is not part of the sources at hand. The sequence holds a cursor, an
    exhausted flag and the descriptor; when the buffer is empty and the
    sequence is not exhausted, exactly one more page is fetched with
    [_get_more], the cursor and the flag advance, and the items of the
    page are handed out in order; when the sequence is exhausted the
    iteration ends. *)
Record LazyList (T : Type) : Type := {
  _last_key : json;
  _exhausted : bool;
  _value_dict : value_dict T
}.
Arguments _last_key {T} _.
Arguments _exhausted {T} _.
Arguments _value_dict {T} _.

Definition LazyList_new {T} (get_more_value_dict : value_dict T) : LazyList T :=
  {| _last_key := JNull; _exhausted := false;
     _value_dict := get_more_value_dict |}.

(** One page: the items and the sequence after the fetch. *)
Definition LazyList_fetch {T} (ll : LazyList T) : M (list T * LazyList T) :=
  fun w =>
    match _get_more (_last_key ll) (_value_dict ll) w with
    | (Return (newdata, k, ex), vd, w') =>
        (Return (newdata, {| _last_key := k; _exhausted := ex;
                             _value_dict := vd |}), w')
    | (Raise e, _, w') => (Raise e, w')
    | (OutOfFuel, _, w') => (OutOfFuel, w')
    end.

(** [for x in lazy_list: body(x)]; [fuel] bounds the number of pages. *)
Fixpoint LazyList_for_each {T} (fuel : nat) (ll : LazyList T)
    (body : T -> M unit) : M unit :=
  if _exhausted ll then ret tt
  else
    match fuel with
    | O => out_of_fuel
    | S fuel' =>
        bind (LazyList_fetch ll) (fun '(items, ll') =>
        bind (for_each items body) (fun _ =>
        LazyList_for_each fuel' ll' body))
    end.

(** ** Resource identity resolver *)

Definition kv : gmap string string :=
  list_to_map [("entities", "entity");
               ("alarms", "alarm");
               ("checks", "check");
               ("notifications", "notification");
               ("notification_plans", "notificationPlan")].

Definition _plural_to_singular (name : string) : outcome string :=
  match kv !! name with
  | Some v => Return v
  | None => Raise (KeyError name)
  end.

(** The loop [for i in range(0, len(chunks), 2)] of [_url_to_obj_ids]:
    [chunks[i]] is translated first, then [chunks[i + 1]] is read. *)
Fixpoint walk_chunks (chunks : list string) (rv : gmap string string)
    : outcome (gmap string string) :=
  match chunks with
  | [] => Return rv
  | name :: rest =>
      try! singular := _plural_to_singular name in
      let key := to_underscore_separated (singular ++ "_id") in
      match rest with
      | [] => Raise IndexError
      | v :: rest' => walk_chunks rest' (<[key := v]> rv)
      end
  end.

(** [self.connection.request_path]. *)
Variable request_path : string.

(** [path.split('/')[1:]] after the prefix is removed. *)
Definition chunks_of (url : string) : list string :=
  let rp := request_path in
  let path := urlparse_path url in
  let path :=
    if startswith path rp then drop_chars (String.length rp) path else path in
  tail (split "/" path).

Definition _url_to_obj_ids (url : string) : outcome (gmap string string) :=
  walk_chunks (chunks_of url) ∅.

(** ** Create and update *)

(** [for k in data.keys(): if data[k] == None: del data[k]], on the
    caller's dictionary: the loop runs over the list of keys taken before
    it starts, and gives the dictionary as it leaves it. *)
Fixpoint strip_None (keys : list string) (data : gmap string json)
    : outcome unit * gmap string json :=
  match keys with
  | [] => (Return tt, data)
  | k :: keys' =>
      match data !! k with
      | Some v => strip_None keys' (if is_None v then delete k data else data)
      | None => (Raise (KeyError k), data)
      end
  end.

(** [data.keys()]. *)
Definition keys (data : gmap string json) : list string :=
  (map_to_list data).*1.

(** [if not location] for the result of [headers.get('location')]. *)
Definition no_location (location : option string) : bool :=
  match location with
  | None => true
  | Some s => String.eqb s ""
  end.

(** [_create]. The dictionary [data] belongs to the caller and is changed
    in place: its contents after the call are the second component. *)
Definition _create {T} (url : string) (data : gmap string json)
    (coerce : gmap string string -> M T)
    : world -> outcome T * gmap string json * world :=
  fun w =>
    match strip_None (keys data) data with
    | (Return _, data) =>
        let '(o, w') :=
          bind (request url None (JObj data) None "POST" false) (fun resp =>
            if status resp =? CREATED then
              let location := headers resp !! "location" in
              if no_location location
              then raise (LibcloudError "Missing location header")
              else
                bind (lift (_url_to_obj_ids (default "" location))) (fun obj_ids =>
                coerce obj_ids)
            else
              raise (LibcloudError ("Unexpected status code: "
                                    ++ pct_s (JNum (status resp))))) w in
        (o, data, w')
    | (Raise e, data) => (Raise e, data, w)
    | (OutOfFuel, data) => (OutOfFuel, data, w)
    end.

(** [_update]. *)
Definition _update {T} (url : string) (data : gmap string json)
    (coerce : gmap string string -> M T)
    : world -> outcome T * gmap string json * world :=
  fun w =>
    match strip_None (keys data) data with
    | (Return _, data) =>
        let '(o, w') :=
          bind (request url None (JObj data) None "PUT" false) (fun resp =>
            if status resp =? NO_CONTENT then
              let location := headers resp !! "location" in
              if no_location location
              then raise (LibcloudError "Missing location header")
              else
                bind (lift (_url_to_obj_ids (default "" location))) (fun obj_ids =>
                coerce obj_ids)
            else
              raise (LibcloudError ("Unexpected status code: "
                                    ++ pct_s (JNum (status resp))))) w in
        (o, data, w')
    | (Raise e, data) => (Raise e, data, w)
    | (OutOfFuel, data) => (OutOfFuel, data, w)
    end.

(** ** Checks, alarms and the entity delete *)

(** [value_dict['entity_id']]. *)
Definition ctx_entity_id (value_dict : fetch_ctx) : outcome json :=
  match entity_id value_dict with
  | Some e => Return e
  | None => Raise (KeyError "entity_id")
  end.

Definition _to_check (obj : json) (value_dict : fetch_ctx) : outcome Check.t :=
  try! id := getitem obj "id" in
  try! label := get obj "label" in
  try! timeout := getitem obj "timeout" in
  try! period := getitem obj "period" in
  try! monitoring_zones := getitem obj "monitoring_zones_poll" in
  try! target_alias := getitem obj "target_alias" in
  try! target_resolver := getitem obj "target_resolver" in
  try! type := getitem obj "type" in
  try! details := getitem obj "details" in
  try! entity_id := ctx_entity_id value_dict in
  Return {| Check.id := id; Check.label := label; Check.timeout := timeout;
            Check.period := period; Check.monitoring_zones := monitoring_zones;
            Check.target_alias := target_alias;
            Check.target_resolver := target_resolver; Check.type := type;
            Check.details := details; Check.entity_id := entity_id |}.

Definition _to_alarm (alarm : json) (value_dict : fetch_ctx) : outcome Alarm.t :=
  try! id := getitem alarm "id" in
  try! type := getitem alarm "check_type" in
  try! criteria := getitem alarm "criteria" in
  try! notification_plan_id := getitem alarm "notification_plan_id" in
  try! entity_id := ctx_entity_id value_dict in
  Return {| Alarm.id := id; Alarm.type := type; Alarm.criteria := criteria;
            Alarm.notification_plan_id := notification_plan_id;
            Alarm.entity_id := entity_id |}.

Definition list_checks (entity : Entity.t) (ex_next_marker : json)
    : LazyList Check.t :=
  LazyList_new
    {| ctx := {| url := "/entities/" ++ pct_s (Entity.id entity) ++ "/checks";
                 params := None;
                 start_marker := ex_next_marker;
                 entity_id := Some (Entity.id entity) |};
       list_item_mapper := Some _to_check;
       object_mapper := None |}.

Definition list_alarms (entity : Entity.t) (ex_next_marker : json)
    : LazyList Alarm.t :=
  LazyList_new
    {| ctx := {| url := "/entities/" ++ pct_s (Entity.id entity) ++ "/alarms";
                 params := None;
                 start_marker := ex_next_marker;
                 entity_id := Some (Entity.id entity) |};
       list_item_mapper := Some _to_alarm;
       object_mapper := None |}.

Definition delete_check (check : Check.t) : M bool :=
  bind (request ("/entities/" ++ pct_s (Check.entity_id check)
                 ++ "/checks/" ++ pct_s (Check.id check))
                None (JStr "") None "DELETE" false) (fun resp =>
  ret (status resp =? NO_CONTENT)).

Definition delete_alarm (alarm : Alarm.t) : M bool :=
  bind (request ("/entities/" ++ pct_s (Alarm.entity_id alarm)
                 ++ "/alarms/" ++ pct_s (Alarm.id alarm))
                None (JStr "") None "DELETE" false) (fun resp =>
  ret (status resp =? NO_CONTENT)).

Definition ex_delete_checks (fuel : nat) (entity : Entity.t) : M unit :=
  let checks := list_checks entity JNull in
  LazyList_for_each fuel checks (fun check =>
    bind (delete_check check) (fun _ => ret tt)).

Definition ex_delete_alarms (fuel : nat) (entity : Entity.t) : M unit :=
  let alarms := list_alarms entity JNull in
  LazyList_for_each fuel alarms (fun alarm =>
    bind (delete_alarm alarm) (fun _ => ret tt)).

(** The body of the [except RackspaceMonitoringValidationError, e] clause
    of [delete_entity], up to the recursive call. *)
Definition delete_children (fuel : nat) (entity : Entity.t)
    (ex_delete_children : bool) (e : exn) (e_type e_details : json) : M unit :=
  bind (lift (getitem e_details "type")) (fun type =>
  if negb ex_delete_children || negb (eq_str e_type "childrenExistError")
  then raise e
  else if eq_str type "Check" then ex_delete_checks fuel entity
  else if eq_str type "Alarm" then ex_delete_alarms fuel entity
  else ret tt).

(** [delete_entity]; [fuel] bounds the depth of the recursion (and the
    pages of each listing). *)
Fixpoint delete_entity (fuel : nat) (entity : Entity.t)
    (ex_delete_children : bool) : M bool :=
  match fuel with
  | O => out_of_fuel
  | S fuel' =>
      fun w =>
        match request ("/entities/" ++ pct_s (Entity.id entity))
                      None (JStr "") None "DELETE" false w with
        | (Return resp, w') => (Return (status resp =? NO_CONTENT), w')
        | (Raise (RackspaceMonitoringValidationError _ e_type _ e_details as e), w') =>
            bind (delete_children fuel' entity ex_delete_children e e_type e_details)
                 (fun _ => delete_entity fuel' entity true) w'
        | (Raise e, w') => (Raise e, w')
        | (OutOfFuel, w') => (OutOfFuel, w')
        end
  end.
End Driver.

Arguments ctx {T} _.
Arguments list_item_mapper {T} _.
Arguments object_mapper {T} _.
Arguments _last_key {T} _.
Arguments _exhausted {T} _.
Arguments _value_dict {T} _.

(** ** Definitions used to state the properties *)

Section Statements.
Context `{PyEnv} `{Service}.
Variable request_path : string.

(** The world after one more exchange with the base connection. *)
Definition exchanged (w : world) (q : http_request) (a : reply) (s : svc)
    : world :=
  {| trace := trace w ++ [(q, a)]; server := s |}.

(** The query parameters of a page fetch, in the words of the spec: the
    extra parameters of the descriptor, with [marker] set to the cursor
    when one is set, else to the start cursor when that is set. *)
Definition marker_params {T} (cursor : json) (descriptor : value_dict T)
    : gmap string json :=
  let extra := default ∅ (params (ctx descriptor)) in
  if truthy cursor then <["marker" := cursor]> extra
  else if truthy (start_marker (ctx descriptor))
       then <["marker" := start_marker (ctx descriptor)]> extra
       else extra.

(** The request of a page fetch: a GET of the descriptor's URL. *)
Definition page_request {T} (cursor : json) (descriptor : value_dict T)
    : http_request :=
  {| req_action := url (ctx descriptor);
     req_params := marker_params cursor descriptor;
     req_data := JStr "";
     req_method := "GET";
     req_headers := {["Accept" := "application/json"]};
     req_raw := false |}.

(** A dictionary without its null-valued keys. *)
Definition without_None (data : gmap string json) : gmap string json :=
  filter (fun kv => is_None kv.2 = false) data.

(** The request of [_create] ([method = "POST"]) and of [_update]
    ([method = "PUT"]): the serialised dictionary without its null-valued
    keys. *)
Definition write_request (method url : string) (data : gmap string json)
    : http_request :=
  {| req_action := url;
     req_params := ∅;
     req_data := JStr (json_dumps (JObj (without_None data)));
     req_method := method;
     req_headers := <["Content-Type" := "application/json; charset=UTF-8"]>
                      {["Accept" := "application/json"]};
     req_raw := false |}.

(** The helper of the spec that [create] and [update] share: strip the
    null-valued keys, send with [method], require the status [expected]
    and a location header, resolve the location and reconstruct. *)
Definition create_or_update {T} (method : string) (expected : Z)
    (url : string) (data : gmap string json)
    (constructor : gmap string string -> M T)
    : world -> outcome T * gmap string json * world :=
  fun w =>
    let data := without_None data in
    let '(o, w') :=
      bind (request url None (JObj data) None method false) (fun resp =>
        if status resp =? expected then
          match headers resp !! "location" with
          | None => raise (LibcloudError "Missing location header")
          | Some location =>
              if String.eqb location ""
              then raise (LibcloudError "Missing location header")
              else bind (lift (_url_to_obj_ids request_path location)) constructor
          end
        else raise (LibcloudError ("Unexpected status code: "
                                   ++ pct_s (JNum (status resp))))) w in
    (o, data, w').

(** A location path written as [/collection/id/collection/id/...]. *)
Fixpoint location_of (pairs : list (string * string)) : string :=
  match pairs with
  | [] => ""
  | (collection, id) :: pairs' =>
      "/" ++ collection ++ "/" ++ id ++ location_of pairs'
  end.

(** Recording one [(collection, id)] pair, in the words of the spec. *)
Definition record_pair (rv : outcome (gmap string string))
    (pair : string * string) : outcome (gmap string string) :=
  try! m := rv in
  try! singular := _plural_to_singular pair.1 in
  Return (<[to_underscore_separated (singular ++ "_id") := pair.2]> m).

Definition resolve_pairs (pairs : list (string * string))
    : outcome (gmap string string) :=
  foldl record_pair (Return ∅) pairs.

(** A path segment: no slash inside. *)
Definition segment (s : string) : Prop := contains_char "/" s = false.

(** The request of the entity delete and of the delete of a child. *)
Definition delete_request (action : string) : http_request :=
  {| req_action := action;
     req_params := ∅;
     req_data := JStr "";
     req_method := "DELETE";
     req_headers := {["Accept" := "application/json"]};
     req_raw := false |}.

Definition entity_url (entity : Entity.t) : string :=
  "/entities/" ++ pct_s (Entity.id entity).

Definition check_url (check : Check.t) : string :=
  "/entities/" ++ pct_s (Check.entity_id check)
  ++ "/checks/" ++ pct_s (Check.id check).

Definition alarm_url (alarm : Alarm.t) : string :=
  "/entities/" ++ pct_s (Alarm.entity_id alarm)
  ++ "/alarms/" ++ pct_s (Alarm.id alarm).

(** The request [q] was sent and answered with a response. *)
Definition answered (q : http_request) (tr : list (http_request * reply))
    : Prop :=
  exists resp, (q, Responded resp) ∈ tr.

(** What the handler of [delete_entity] deletes before it retries. *)
Definition children_cleanup (fuel : nat) (entity : Entity.t) (type : json)
    : M unit :=
  if eq_str type "Check" then ex_delete_checks fuel entity
  else if eq_str type "Alarm" then ex_delete_alarms fuel entity
  else ret tt.
End Statements.

(** ** A test double: one entity with two checks and one alarm *)

Module Mock.

(** Bodies are named rather than spelled out: [checks chA chB] is a page
    listing two checks and no next marker, [page1] a page whose next
    marker is [abc], [invalid] a validation failure. *)
Definition check_obj (id : string) : json :=
  JObj (list_to_map
    [("id", JStr id); ("timeout", JNum 29); ("period", JNum 30);
     ("monitoring_zones_poll", JArr []); ("target_alias", JNull);
     ("target_resolver", JNull); ("type", JStr "remote.ping");
     ("details", JObj ∅)]).

Definition alarm_obj (id : string) : json :=
  JObj (list_to_map
    [("id", JStr id); ("check_type", JStr "remote.ping");
     ("criteria", JStr "always"); ("notification_plan_id", JStr "npA")]).

Definition page (values : list json) (next_marker : json) : json :=
  JObj (list_to_map
    [("values", JArr values);
     ("metadata", JObj {["next_marker" := next_marker]})]).

Definition invalid_obj : json :=
  JObj (list_to_map
    [("code", JNum 400); ("type", JStr "invalidJson");
     ("message", JStr "bad input"); ("details", JObj ∅)]).

Definition loads (body : string) : option json :=
  match split " " body with
  | "checks" :: ids => Some (page (check_obj <$> ids) JNull)
  | "alarms" :: ids => Some (page (alarm_obj <$> ids) JNull)
  | ["page1"] => Some (page [JStr "a1"; JStr "a2"] (JStr "abc"))
  | ["page2"] => Some (page [JStr "a3"] JNull)
  | ["invalid"] => Some invalid_obj
  | _ => None
  end.

(** A serialiser that writes the keys of an object only. *)
Definition dumps (v : json) : string :=
  match v with
  | JObj o => String.concat "," (map_to_list o).*1
  | _ => ""
  end.

#[export] Instance env : PyEnv := {|
  json_loads := loads;
  json_dumps := dumps;
  urlparse_path := fun url => url;
  pct_s := fun v => match v with JStr s => s | _ => "None" end
|}.

Record state : Type := {
  checks : list string;
  alarms : list string
}.

Definition json_headers : gmap string string :=
  {["content-type" := "application/json"]}.

Definition located (code : Z) : response :=
  {| status := code;
     headers := {["location" := "/v1.0/12345/entities/enABC/checks/chDEF"]};
     body := "" |}.

Definition children_exist (kind : string) : reply :=
  Raised (RackspaceMonitoringValidationError
            (JNum 400) (JStr "childrenExistError")
            (JStr "Cannot delete an entity that has children")
            (JObj {["type" := JStr kind]})).

Definition remove (id : string) (l : list string) : list string :=
  List.filter (fun x => negb (String.eqb x id)) l.

Definition serve (q : http_request) (s : state) : reply * state :=
  let action := req_action q in
  let method := req_method q in
  if String.eqb method "DELETE" then
    if String.eqb action "/entities/enA" then
      match checks s, alarms s with
      | _ :: _, _ => (children_exist "Check", s)
      | [], _ :: _ => (children_exist "Alarm", s)
      | [], [] =>
          (Responded {| status := NO_CONTENT; headers := ∅; body := "" |}, s)
      end
    else if String.prefix "/entities/enA/checks/" action then
      (Responded {| status := NO_CONTENT; headers := ∅; body := "" |},
       {| checks := remove (drop_chars 21 action) (checks s);
          alarms := alarms s |})
    else if String.prefix "/entities/enA/alarms/" action then
      (Responded {| status := NO_CONTENT; headers := ∅; body := "" |},
       {| checks := checks s;
          alarms := remove (drop_chars 21 action) (alarms s) |})
    else (Raised (Exception (JStr "not found")), s)
  else if String.eqb method "GET" then
    if String.eqb action "/entities/enA/checks" then
      (Responded {| status := OK; headers := json_headers;
                    body := String.concat " " ("checks" :: checks s) |}, s)
    else if String.eqb action "/entities/enA/alarms" then
      (Responded {| status := OK; headers := json_headers;
                    body := String.concat " " ("alarms" :: alarms s) |}, s)
    else if String.eqb action "/audits" then
      match req_params q !! "marker" with
      | Some (JStr "abc") =>
          (Responded {| status := OK; headers := json_headers;
                        body := "page2" |}, s)
      | _ =>
          (Responded {| status := OK; headers := json_headers;
                        body := "page1" |}, s)
      end
    else if String.eqb action "/empty" then
      (Responded {| status := NO_CONTENT; headers := ∅; body := "" |}, s)
    else (Raised (Exception (JStr "not found")), s)
  else if String.eqb method "POST" then (Responded (located CREATED), s)
  else if String.eqb method "PUT" then (Responded (located NO_CONTENT), s)
  else (Raised (Exception (JStr "not found")), s).

#[export] Instance service : Service := {|
  svc := state;
  base_request := serve
|}.

Definition world0 : world :=
  {| trace := []; server := {| checks := ["chA"; "chB"]; alarms := ["alA"] |} |}.

Definition enA : Entity.t :=
  {| Entity.id := JStr "enA"; Entity.label := JStr "a"; Entity.extra := JObj ∅;
     Entity.ip_addresses := [] |}.

(** The descriptor of [list_audits], with the identity as its mapper. *)
Definition audits : value_dict json :=
  {| ctx := {| url := "/audits"; params := Some {["limit" := JNum 200]};
               start_marker := JNull; entity_id := None |};
     list_item_mapper := Some (fun audit _ => Return audit);
     object_mapper := None |}.

(** The constructor handed to [_create] and [_update] in the examples:
    it gives back the identifiers it is called with. *)
Definition coerce (obj_ids : gmap string string) : M (gmap string string) :=
  ret obj_ids.

(** What the trace shows of each exchange: method and path. *)
Definition calls (w : world) : list (string * string) :=
  (fun x => (req_method x.1, req_action x.1)) <$> trace w.

End Mock.

(** A service that answers every request with the same response. *)
Definition const_service (r : response) : Service :=
  {| svc := unit; base_request := fun _ s => (Responded r, s) |}.


(** ** Responses and services, as the properties speak of them *)

(** The content type a response declares: the lower-case header when
    there is one, else the capitalised one. *)
Definition content_type_of (r : response) : option string :=
  match headers r !! "content-type" with
  | Some v => Some v
  | None => headers r !! "Content-Type"
  end.

(** The media type of a content type: what stands before the first [;]. *)
Definition media_type (content_type : string) : string :=
  match split ";" content_type with
  | x :: _ => x
  | [] => content_type
  end.

(** The response has a body, declares it as JSON, and the body is the
    JSON text of [v]. *)
Definition json_body `{PyEnv} (r : response) (v : json) : Prop :=
  body r <> "" /\
  media_type <$> content_type_of r = Some "application/json" /\
  json_loads (body r) = Some v.

Section Served.
Context `{PyEnv} `{Service}.

(** From state [s] the service answers the DELETE of each item of a
    list, one after the other, with a response; [tr] are the exchanges
    and [s'] is the state it ends in. *)
Inductive deleted {T} (del : T -> http_request)
    : list T -> svc -> list (http_request * reply) -> svc -> Prop :=
| deleted_nil s :
    deleted del [] s [] s
| deleted_cons x xs s resp s1 tr s2 :
    base_request (del x) s = (Responded resp, s1) ->
    deleted del xs s1 tr s2 ->
    deleted del (x :: xs) s ((del x, Responded resp) :: tr) s2.

(** The response is a page of the descriptor: status 200 and a JSON
    object whose [values] map to [items] and whose [metadata] gives the
    next marker [next] (null when it has none). *)
Definition page_of {T} (vd : value_dict T) (resp : response)
    (items : list T) (next : json) : Prop :=
  status resp = OK /\
  exists f o vs md,
    list_item_mapper vd = Some f /\
    json_loads (body resp) = Some (JObj o) /\
    o !! "values" = Some (JArr vs) /\
    o !! "metadata" = Some (JObj md) /\
    omap (fun x => f x (ctx vd)) vs = Return items /\
    next = default JNull (md !! "next_marker").

(** From state [s] and cursor [cursor] the service lists [items] in [n]
    pages, the last one without a next marker, and answers the DELETE of
    every item once its page is served; [tr] are the exchanges, page
    after page, and [s'] is the state it ends in. *)
Inductive listed {T} (vd : value_dict T) (del : T -> http_request)
    : json -> svc -> nat -> list T -> list (http_request * reply) -> svc
      -> Prop :=
| listed_last cursor s resp s1 items next tr s2 :
    base_request (page_request cursor vd) s = (Responded resp, s1) ->
    page_of vd resp items next ->
    is_None next = true ->
    deleted del items s1 tr s2 ->
    listed vd del cursor s 1 items
      ((page_request cursor vd, Responded resp) :: tr) s2
| listed_more cursor s resp s1 items next tr s2 n rest tr' s3 :
    base_request (page_request cursor vd) s = (Responded resp, s1) ->
    page_of vd resp items next ->
    is_None next = false ->
    deleted del items s1 tr s2 ->
    listed vd del next s2 n rest tr' s3 ->
    listed vd del cursor s (S n) (items ++ rest)
      ((page_request cursor vd, Responded resp) :: tr ++ tr') s3.
End Served.

(** A third test double: the audits, with a first page whose next marker
    is [abc] and no content behind it. *)
Module Quiet.

Definition serve (q : http_request) (s : unit) : reply * unit :=
  if String.eqb (req_method q) "GET" && String.eqb (req_action q) "/audits" then
    match req_params q !! "marker" with
    | None =>
        (Responded {| status := OK; headers := Mock.json_headers;
                      body := "page1" |}, s)
    | Some _ =>
        (Responded {| status := NO_CONTENT; headers := ∅; body := "" |}, s)
    end
  else (Raised (Exception (JStr "not found")), s).

#[export] Instance service : Service := {|
  svc := unit;
  base_request := serve
|}.

Definition world0 : world := {| trace := []; server := tt |}.

(** A listing that starts from the marker [m0]. *)
Definition from_m0 : value_dict json :=
  {| ctx := {| url := "/audits"; params := None;
               start_marker := JStr "m0"; entity_id := None |};
     list_item_mapper := Some (fun audit _ => Return audit);
     object_mapper := None |}.

(** The markers of the requests in a trace. *)
Definition markers (w : world) : list (option json) :=
  (fun x => req_params x.1 !! "marker") <$> trace w.

End Quiet.

(** The checks and the alarm of the first test double, as the mappers
    build them. *)
Module Fixture.

Definition check (id : string) : Check.t :=
  {| Check.id := JStr id; Check.label := JNull; Check.timeout := JNum 29;
     Check.period := JNum 30; Check.monitoring_zones := JArr [];
     Check.target_alias := JNull; Check.target_resolver := JNull;
     Check.type := JStr "remote.ping"; Check.details := JObj ∅;
     Check.entity_id := JStr "enA" |}.

Definition no_content : response :=
  {| status := NO_CONTENT; headers := ∅; body := "" |}.

Definition checks_page : response :=
  {| status := OK; headers := Mock.json_headers; body := "checks chA chB" |}.

End Fixture.

(** ** More of the driver: getters, mappers and the adapters built on
    [_create] *)

(** The attribute [object] of a response. The base class of libcloud sets
    it when it builds the response; it is not part of the driver, which
    is verified for every choice of it. *)
Class BaseResponse : Type := {
  object : response -> json
}.

(** [LatestAlarmState]. *)
Module LatestAlarmState.
Record t : Type := {
  entity_id : json;
  check_id : json;
  alarm_id : json;
  timestamp : json;
  state : json
}.
End LatestAlarmState.

(** Modelled from the spec: the class [NotificationPlan] of
    [rackspace_monitoring.base], which is not part of the sources at hand;
    a flat value record of the keyword arguments it is constructed with
    (the back-reference to the driver is left out). *)
Module NotificationPlan.
Record t : Type := {
  id : json;
  label : json;
  critical_state : json;
  warning_state : json;
  ok_state : json
}.
End NotificationPlan.

(** The dictionary that [_to_overview_obj] returns. *)
Module Overview.
Record t : Type := {
  entity : Entity.t;
  checks : list Check.t;
  alarms : list Alarm.t;
  latest_alarm_states : list LatestAlarmState.t
}.
End Overview.

(** The keys a resolved location can hold. *)
Definition id_keys : list string :=
  ["entity_id"; "alarm_id"; "check_id"; "notification_id";
   "notification_plan_id"].

(** [v.get(k, d)]. *)
Definition get_default (v : json) (k : string) (d : json) : outcome json :=
  match v with
  | JObj o => Return (default d (o !! k))
  | _ => Raise AttributeError
  end.

(** [v.keys()]: only objects have keys. *)
Definition keys_of (v : json) : outcome (list string) :=
  match v with
  | JObj o => Return (keys o)
  | _ => Raise AttributeError
  end.

Section Adapters.
Context `{PyEnv} `{Service} `{BaseResponse}.
Variable request_path : string.

(** A [value_dict] literal that holds ['entity_id'] at most: the mappers
    read no other entry of it. *)
Definition entity_ctx (entity_id : option json) : fetch_ctx :=
  {| url := ""; params := None; start_marker := JNull;
     entity_id := entity_id |}.

(** The dictionary literal of [_check_kwarg_to_data]: [kwargs.get(k)] is
    [None] for an absent keyword, [kwargs.get(k, d)] is [d]. *)
Definition check_fields (kwargs : gmap string json) : gmap string json :=
  list_to_map
    [("who", default JNull (kwargs !! "who"));
     ("why", default JNull (kwargs !! "why"));
     ("label", default JNull (kwargs !! "label"));
     ("timeout", default (JNum 29) (kwargs !! "timeout"));
     ("period", default (JNum 30) (kwargs !! "period"));
     ("monitoring_zones_poll", default (JArr []) (kwargs !! "monitoring_zones"));
     ("target_alias", default JNull (kwargs !! "target_alias"));
     ("target_resolver", default JNull (kwargs !! "target_resolver"));
     ("type", default JNull (kwargs !! "type"));
     ("details", default JNull (kwargs !! "details"))].

(** [_check_kwarg_to_data]: the literal, then the loop that deletes the
    null-valued keys. *)
Definition _check_kwarg_to_data (kwargs : gmap string json)
    : outcome (gmap string json) :=
  let data := check_fields kwargs in
  match strip_None (keys data) data with
  | (Return _, data) => Return data
  | (Raise e, _) => Raise e
  | (OutOfFuel, _) => OutOfFuel
  end.

(** [get_check]. *)
Definition get_check (entity_id check_id : json) : M Check.t :=
  bind (request ("/entities/" ++ pct_s entity_id ++ "/checks/" ++ pct_s check_id)
                None (JStr "") None "GET" false) (fun resp =>
  lift (_to_check (object resp) (entity_ctx (Some entity_id)))).

(** [get_check] called with the entries of [obj_ids] as its keyword
    arguments: the keywords have to be [entity_id] and [check_id] and no
    others, or the call is a [TypeError]. *)
Definition get_check_kwargs (obj_ids : gmap string string) : M Check.t :=
  match obj_ids !! "entity_id", obj_ids !! "check_id" with
  | Some entity_id, Some check_id =>
      if (size obj_ids =? 2)%nat
      then get_check (JStr entity_id) (JStr check_id)
      else raise TypeError
  | _, _ => raise TypeError
  end.

(** [create_check]. The dictionary [data] is local to the call. *)
Definition create_check (entity : Entity.t) (kwargs : gmap string json)
    : M Check.t :=
  fun w =>
    match _check_kwarg_to_data kwargs with
    | Return data =>
        let '(o, _, w') :=
          _create request_path
            ("/entities/" ++ pct_s (Entity.id entity) ++ "/checks")
            data get_check_kwargs w in
        (o, w')
    | Raise e => (Raise e, w)
    | OutOfFuel => (OutOfFuel, w)
    end.

(** [_to_entity]. *)
Definition _to_entity (entity : json) (value_dict : fetch_ctx)
    : outcome Entity.t :=
  try! ipaddrs := get_default entity "ip_addresses" (JObj ∅) in
  try! ips :=
    (if is_None ipaddrs then Return []
     else
       try! ks := keys_of ipaddrs in
       omap (fun key => try! v := getitem ipaddrs key in Return (key, v)) ks) in
  try! id := getitem entity "id" in
  try! label := getitem entity "label" in
  try! extra := getitem entity "metadata" in
  Return {| Entity.id := id; Entity.label := label; Entity.extra := extra;
            Entity.ip_addresses := ips |}.

Definition _to_latest_alarm_state (obj : json) (value_dict : fetch_ctx)
    : outcome LatestAlarmState.t :=
  try! entity_id := getitem obj "entity_id" in
  try! check_id := getitem obj "check_id" in
  try! alarm_id := getitem obj "alarm_id" in
  try! timestamp := getitem obj "timestamp" in
  try! state := getitem obj "state" in
  Return {| LatestAlarmState.entity_id := entity_id;
            LatestAlarmState.check_id := check_id;
            LatestAlarmState.alarm_id := alarm_id;
            LatestAlarmState.timestamp := timestamp;
            LatestAlarmState.state := state |}.

(** [_to_overview_obj]. *)
Definition _to_overview_obj (data : json) (value_dict : fetch_ctx)
    : outcome Overview.t :=
  try! entity_obj := getitem data "entity" in
  try! entity := _to_entity entity_obj (entity_ctx None) in
  let child_value_dict := entity_ctx (Some (Entity.id entity)) in
  try! checks_obj := getitem data "checks" in
  try! checks_items := iter checks_obj in
  try! checks := omap (fun check => _to_check check child_value_dict) checks_items in
  try! alarms_obj := getitem data "alarms" in
  try! alarms_items := iter alarms_obj in
  try! alarms := omap (fun alarm => _to_alarm alarm child_value_dict) alarms_items in
  try! states_obj := getitem data "latest_alarm_states" in
  try! states_items := iter states_obj in
  try! latest_alarm_states :=
    omap (fun item => _to_latest_alarm_state item (entity_ctx None)) states_items in
  Return {| Overview.entity := entity; Overview.checks := checks;
            Overview.alarms := alarms;
            Overview.latest_alarm_states := latest_alarm_states |}.

(** [_to_notification_plan]. *)
Definition _to_notification_plan (notification_plan : json)
    (value_dict : fetch_ctx) : outcome NotificationPlan.t :=
  try! critical_state := get_default notification_plan "critical_state" (JArr []) in
  try! warning_state := get_default notification_plan "warning_state" (JArr []) in
  try! ok_state := get_default notification_plan "ok_state" (JArr []) in
  try! id := getitem notification_plan "id" in
  try! label := getitem notification_plan "label" in
  Return {| NotificationPlan.id := id; NotificationPlan.label := label;
            NotificationPlan.critical_state := critical_state;
            NotificationPlan.warning_state := warning_state;
            NotificationPlan.ok_state := ok_state |}.

(** [get_notification_plan]. *)
Definition get_notification_plan (notification_plan_id : json)
    : M NotificationPlan.t :=
  bind (request ("/notification_plans/" ++ pct_s notification_plan_id)
                None (JStr "") None "GET" false) (fun resp =>
  lift (_to_notification_plan (object resp) (entity_ctx None))).

(** [get_notification_plan] called with the entries of [obj_ids] as its
    keyword arguments. *)
Definition get_notification_plan_kwargs (obj_ids : gmap string string)
    : M NotificationPlan.t :=
  match obj_ids !! "notification_plan_id" with
  | Some notification_plan_id =>
      if (size obj_ids =? 1)%nat
      then get_notification_plan (JStr notification_plan_id)
      else raise TypeError
  | None => raise TypeError
  end.

(** The dictionary literal of [create_notification_plan]. *)
Definition plan_fields (kwargs : gmap string json) : gmap string json :=
  list_to_map
    [("label", default JNull (kwargs !! "label"));
     ("critical_state", default (JArr []) (kwargs !! "critical_state"));
     ("warning_state", default (JArr []) (kwargs !! "warning_state"));
     ("ok_state", default (JArr []) (kwargs !! "ok_state"))].

(** [create_notification_plan]. *)
Definition create_notification_plan (kwargs : gmap string json)
    : M NotificationPlan.t :=
  fun w =>
    let data := plan_fields kwargs in
    let '(o, _, w') :=
      _create request_path "/notification_plans" data
        get_notification_plan_kwargs w in
    (o, w').
End Adapters.

(** A second test double: a service that stores what is created. *)
Module Shop.

Definition check_obj (id : string) : json :=
  JObj (list_to_map
    [("id", JStr id); ("label", JStr "ping"); ("timeout", JNum 29);
     ("period", JNum 30); ("monitoring_zones_poll", JArr []);
     ("target_alias", JNull); ("target_resolver", JNull);
     ("type", JStr "remote.ping"); ("details", JObj ∅)]).

Definition plan_obj (id : string) : json :=
  JObj (list_to_map [("id", JStr id); ("label", JStr "plan")]).

Definition entity_obj (id : string) : json :=
  JObj (list_to_map
    [("id", JStr id); ("label", JStr "web"); ("metadata", JObj ∅);
     ("ip_addresses", JObj {["default" := JStr "10.0.0.1"]})]).

Definition overview_obj : json :=
  JObj (list_to_map
    [("entity", entity_obj "enA");
     ("checks", JArr [check_obj "chA"; check_obj "chB"]);
     ("alarms", JArr [Mock.alarm_obj "alA"]);
     ("latest_alarm_states", JArr [])]).

(** Bodies are named: [check chA] is the check [chA], [plan npA] the
    notification plan [npA]. *)
Definition loads (body : string) : option json :=
  match split " " body with
  | ["check"; id] => Some (check_obj id)
  | ["plan"; id] => Some (plan_obj id)
  | _ => None
  end.

#[export] Instance env : PyEnv := {|
  json_loads := loads;
  json_dumps := Mock.dumps;
  urlparse_path := fun url => url;
  pct_s := fun v => match v with JStr s => s | _ => "None" end
|}.

#[export] Instance base : BaseResponse := {|
  object := fun r => default JNull (loads (body r))
|}.

Definition serve (q : http_request) (s : unit) : reply * unit :=
  let action := req_action q in
  let method := req_method q in
  if String.eqb method "POST" then
    (Responded
       {| status := CREATED;
          headers := {["location" :=
            "/v1.0/12345" ++ action ++ (if String.eqb action "/notification_plans"
                                        then "/npA" else "/chNew")]};
          body := "" |}, s)
  else if String.eqb method "GET" then
    if String.prefix "/entities/enA/checks/" action then
      (Responded {| status := OK; headers := Mock.json_headers;
                    body := "check " ++ drop_chars 21 action |}, s)
    else if String.prefix "/notification_plans/" action then
      (Responded {| status := OK; headers := Mock.json_headers;
                    body := "plan " ++ drop_chars 20 action |}, s)
    else (Raised (Exception (JStr "not found")), s)
  else (Raised (Exception (JStr "not found")), s).

#[export] Instance service : Service := {|
  svc := unit;
  base_request := serve
|}.

Definition world0 : world := {| trace := []; server := tt |}.

Definition calls (w : world) : list (string * string) :=
  (fun x => (req_method x.1, req_action x.1)) <$> trace w.

End Shop.

(** A service that fails every request with the same exception. *)
Definition raising_service (e : exn) : Service :=
  {| svc := unit; base_request := fun _ s => (Raised e, s) |}.
(** * Properties *)

(** ** The transport *)

Section Transport_facts.
Context `{PyEnv} `{Service}.

Lemma super_request_exchanged (q : http_request) (w : world) (a : reply) (s : svc) :
  base_request q (server w) = (a, s) ->
  super_request q w =
  (match a with Responded resp => Return resp | Raised e => Raise e end,
   exchanged w q a s).
Proof.
  intros Hq. unfold super_request, exchanged. rewrite Hq.
  destruct a; reflexivity.
Qed.

Lemma request_GET (action : string) (p : gmap string json) (w : world) :
  request action (Some p) (JStr "") None "GET" false w =
  super_request {| req_action := action; req_params := p; req_data := JStr "";
                   req_method := "GET";
                   req_headers := {["Accept" := "application/json"]};
                   req_raw := false |} w.
Proof. reflexivity. Qed.

Lemma request_DELETE (action : string) (w : world) :
  request action None (JStr "") None "DELETE" false w =
  super_request (delete_request action) w.
Proof. reflexivity. Qed.

Lemma request_POST (action : string) (data : gmap string json) (w : world) :
  request action None (JObj (without_None data)) None "POST" false w =
  super_request (write_request "POST" action data) w.
Proof. reflexivity. Qed.

Lemma request_PUT (action : string) (data : gmap string json) (w : world) :
  request action None (JObj (without_None data)) None "PUT" false w =
  super_request (write_request "PUT" action data) w.
Proof. reflexivity. Qed.
End Transport_facts.

(** ** Pagination engine *)

Section Pagination_facts.
Context `{PyEnv} `{Service}.

Lemma store_params_url {T} (vd : value_dict T) (p : gmap string json) :
  url (ctx (store_params vd p)) = url (ctx vd).
Proof. unfold store_params. destruct (params (ctx vd)); reflexivity. Qed.

Lemma store_params_mappers {T} (vd : value_dict T) (p : gmap string json) :
  list_item_mapper (store_params vd p) = list_item_mapper vd /\
  object_mapper (store_params vd p) = object_mapper vd.
Proof. unfold store_params. destruct (params (ctx vd)); split; reflexivity. Qed.

Lemma store_params_extra {T} (vd : value_dict T) (p : gmap string json) (k : json) :
  p = <["marker" := k]> (default ∅ (params (ctx vd))) ->
  forall m : json,
    <["marker" := m]> (default ∅ (params (ctx (store_params vd p)))) =
    <["marker" := m]> (default ∅ (params (ctx vd))).
Proof.
  intros -> m. unfold store_params.
  destruct (params (ctx vd)) as [p0|] eqn:Hp; simpl.
  - by rewrite insert_insert_eq.
  - by rewrite Hp.
Qed.

(** The cursor that [_get_more] sends as the marker, if any. *)
Lemma marker_params_key {T} (last_key : json) (vd : value_dict T) :
  let key := if negb (truthy last_key) then start_marker (ctx vd) else last_key in
  marker_params last_key vd =
  if truthy key then <["marker" := key]> (default ∅ (params (ctx vd)))
  else default ∅ (params (ctx vd)).
Proof.
  unfold marker_params. destruct (truthy last_key) eqn:Hk; simpl.
  - by rewrite Hk.
  - reflexivity.
Qed.

(** [_get_more] makes exactly one exchange, with [page_request]. *)
Lemma get_more_world {T} (last_key : json) (vd : value_dict T) (w : world) :
  (_get_more last_key vd w).2 =
  exchanged w (page_request last_key vd)
    (base_request (page_request last_key vd) (server w)).1
    (base_request (page_request last_key vd) (server w)).2.
Proof.
  unfold _get_more, page_request.
  rewrite marker_params_key. simpl.
  destruct (truthy (if negb (truthy last_key) then start_marker (ctx vd) else last_key));
    rewrite ?store_params_url, request_GET;
    match goal with
    | |- context [super_request ?q w] =>
        rewrite (super_request_exchanged q w _ _ (surjective_pairing _))
    end; reflexivity.
Qed.

(** The descriptor after the call: same URL, same mappers, and extra
    parameters that differ from the old ones in [marker] at most. *)
Lemma get_more_descriptor {T} (last_key : json) (vd : value_dict T) (w : world) :
  let vd' := (_get_more last_key vd w).1.2 in
  url (ctx vd') = url (ctx vd) /\
  list_item_mapper vd' = list_item_mapper vd /\
  object_mapper vd' = object_mapper vd /\
  forall m : json,
    <["marker" := m]> (default ∅ (params (ctx vd'))) =
    <["marker" := m]> (default ∅ (params (ctx vd))).
Proof.
  unfold _get_more.
  destruct (truthy (if negb (truthy last_key) then start_marker (ctx vd) else last_key));
    match goal with
    | |- context [request ?a ?b ?c ?d ?e ?f w] => destruct (request a b c d e f w)
    end; simpl.
  - rewrite store_params_url.
    destruct (store_params_mappers vd
                (<["marker" := if negb (truthy last_key)
                               then start_marker (ctx vd) else last_key]>
                   (default ∅ (params (ctx vd))))) as [-> ->].
    repeat split. intros m. by eapply store_params_extra.
  - repeat split.
Qed.

(** The page [_get_more] makes of the answer of the transport. *)
Lemma get_more_result {T} (last_key : json) (vd : value_dict T) (w : world) :
  let vd' := (_get_more last_key vd w).1.2 in
  (_get_more last_key vd w).1.1 =
  try! response :=
    (match (base_request (page_request last_key vd) (server w)).1 with
     | Responded resp => Return resp
     | Raised e => Raise e
     end) in
  if status response =? NO_CONTENT then Return ([], JNull, false)
  else if status response =? OK then
    try! resp := loads (body response) in
    try! l :=
      (match list_item_mapper vd with
       | Some func =>
           try! values := getitem resp "values" in
           try! xs := iter values in
           omap (fun x => func x (ctx vd')) xs
       | None =>
           match object_mapper vd with
           | Some func => func resp (ctx vd')
           | None => Raise (KeyError "object_mapper")
           end
       end) in
    try! metadata := getitem resp "metadata" in
    try! m := get metadata "next_marker" in
    Return (l, m, is_None m)
  else
    try! body := loads (body response) in
    try! has_details := contains body "details" in
    try! details :=
      (if has_details : bool then getitem body "details" else Return (JStr "")) in
    Raise (LibcloudError
             ("Unexpected status code: " ++ pct_s (JNum (status response))
              ++ " (url=" ++ pct_s (JStr (url (ctx vd)))
              ++ ", details=" ++ pct_s details ++ ")")).
Proof.
  unfold _get_more, page_request.
  rewrite marker_params_key. simpl.
  destruct (truthy (if negb (truthy last_key) then start_marker (ctx vd) else last_key));
    rewrite ?store_params_url, request_GET;
    match goal with
    | |- context [super_request ?q w] =>
        rewrite (super_request_exchanged q w _ _ (surjective_pairing _))
    end; simpl;
    rewrite ?store_params_url;
    try (destruct (store_params_mappers vd
                (<["marker" := if negb (truthy last_key)
                               then start_marker (ctx vd) else last_key]>
                   (default ∅ (params (ctx vd))))) as [-> ->]);
    reflexivity.
Qed.
End Pagination_facts.

Section Pagination_claims.
Context `{PyEnv} `{Service}.

(** C3 (as the code has it). Every page fetch makes one exchange, a GET
    of the descriptor's URL. Its query parameters are the extra
    parameters of the descriptor with [marker] set to the cursor when one
    is set; else to the start cursor when that is set, on the first fetch
    and on every later fetch made without a cursor; else, when the extra
    parameters hold no marker, they are sent as they are, without a
    [marker]. When a page comes back with a non-empty next marker [m],
    the fetch of the following page sends the original extra parameters
    with [marker] bound to [m] and to nothing else. *)
Theorem get_more_marker {T} (last_key : json) (vd : value_dict T) (w : world) :
  let extra := default ∅ (params (ctx vd)) in
  let q := page_request last_key vd in
  ((_get_more last_key vd w).2 =
     exchanged w q (base_request q (server w)).1 (base_request q (server w)).2 /\
   req_action q = url (ctx vd) /\ req_method q = "GET" /\
   (truthy last_key = true ->
      req_params q = <["marker" := last_key]> extra) /\
   (truthy last_key = false -> truthy (start_marker (ctx vd)) = true ->
      req_params q = <["marker" := start_marker (ctx vd)]> extra) /\
   (truthy last_key = false -> truthy (start_marker (ctx vd)) = false ->
      extra !! "marker" = None ->
      req_params q = extra /\ req_params q !! "marker" = None)) /\
  forall (l : list T) (m : json) (ex : bool) (vd' : value_dict T) (w' : world),
    _get_more last_key vd w = (Return (l, m, ex), vd', w') ->
    truthy m = true ->
    (_get_more m vd' w').2 =
      exchanged w' (page_request m vd')
        (base_request (page_request m vd') (server w')).1
        (base_request (page_request m vd') (server w')).2 /\
    req_params (page_request m vd') =
      <["marker" := m]> (default ∅ (params (ctx vd))) /\
    req_params (page_request m vd') !! "marker" = Some m.
Proof.
  intros extra q. split.
  - split; [apply get_more_world|]. do 2 (split; [reflexivity|]).
    subst q. simpl. unfold marker_params. fold extra.
    split; [|split].
    + by intros ->.
    + by intros -> ->.
    + intros -> -> Hextra. by split.
  - intros l m ex vd' w' Hrun Hm.
    split; [apply get_more_world|].
    assert (Hvd : vd' = (_get_more last_key vd w).1.2) by (by rewrite Hrun).
    destruct (get_more_descriptor last_key vd w) as (_ & _ & _ & Hextra).
    simpl in Hextra. rewrite <- Hvd in Hextra.
    assert (Hp : req_params (page_request m vd') =
                 <["marker" := m]> (default ∅ (params (ctx vd)))).
    { simpl. unfold marker_params. rewrite Hm. apply Hextra. }
    split; [exact Hp|]. rewrite Hp. apply lookup_insert_eq.
Qed.

(** C4. A page fetch answered with status 200 and a body that decodes to
    an object with a [values] list and a [metadata] object gives the
    elements of [values] mapped one by one through the item mapper when
    one is set (the whole body mapped through the page mapper otherwise),
    the next cursor [metadata.next_marker], and an exhausted flag that is
    true exactly when that cursor is null or absent. *)
Theorem get_more_page {T} (last_key : json) (vd : value_dict T) (w : world)
    (resp : response) (s : svc) (o md : gmap string json) (vs : list json) :
  base_request (page_request last_key vd) (server w) = (Responded resp, s) ->
  status resp = OK ->
  json_loads (body resp) = Some (JObj o) ->
  o !! "values" = Some (JArr vs) ->
  o !! "metadata" = Some (JObj md) ->
  let result := (_get_more last_key vd w).1.1 in
  let vd' := (_get_more last_key vd w).1.2 in
  let next := default JNull (md !! "next_marker") in
  (forall f, list_item_mapper vd = Some f ->
     result = try! l := omap (fun x => f x (ctx vd')) vs in
              Return (l, next, is_None next)) /\
  (forall g, list_item_mapper vd = None -> object_mapper vd = Some g ->
     result = try! l := g (JObj o) (ctx vd') in
              Return (l, next, is_None next)) /\
  (is_None next = true <->
     md !! "next_marker" = None \/ md !! "next_marker" = Some JNull).
Proof.
  intros Hq Hst Hbody Hvalues Hmeta result vd' next.
  assert (Hres : result =
    try! l :=
      (match list_item_mapper vd with
       | Some func => omap (fun x => func x (ctx vd')) vs
       | None =>
           match object_mapper vd with
           | Some func => func (JObj o) (ctx vd')
           | None => Raise (KeyError "object_mapper")
           end
       end) in
    Return (l, next, is_None next)).
  { subst result. rewrite get_more_result. rewrite Hq. simpl.
    rewrite Hst. simpl. unfold loads. rewrite Hbody. simpl.
    rewrite Hvalues, Hmeta. simpl.
    destruct (list_item_mapper vd); reflexivity. }
  split; [|split].
  - intros f Hf. rewrite Hres, Hf. reflexivity.
  - intros g Hf Hg. rewrite Hres, Hf, Hg. reflexivity.
  - subst next. destruct (md !! "next_marker") as [[]|]; simpl;
      split; intros Hx; try discriminate; auto;
      destruct Hx as [Hx|Hx]; discriminate.
Qed.
End Pagination_claims.

(** C1. A page fetch answered with status 204, whatever the cursor, the
    descriptor and the rest of the response, gives an empty page and a
    null next cursor, and an exhausted flag that is false. *)
Theorem get_more_no_content `{PyEnv} {T} (last_key : json) (vd : value_dict T)
    (h : gmap string string) (b : string)
    (w : @world (const_service {| status := NO_CONTENT; headers := h; body := b |})) :
  (_get_more last_key vd w).1.1 = Return ([], JNull, false).
Proof. rewrite get_more_result. reflexivity. Qed.


(** What the flag of C1 does to an iteration: against a service that
    answers 204, a lazy list that is not yet exhausted never becomes so,
    and the iteration uses up any fuel. *)
Lemma no_content_never_exhausted `{PyEnv} {T} (h : gmap string string) (b : string)
    (fuel : nat) (ll : LazyList T) (body : T -> M unit)
    (w : @world (const_service {| status := NO_CONTENT; headers := h; body := b |})) :
  _exhausted ll = false ->
  (LazyList_for_each fuel ll body w).1 = OutOfFuel.
Proof.
  revert ll w. induction fuel as [|fuel IH]; intros ll w Hex; simpl; rewrite Hex;
    [reflexivity|].
  unfold bind at 1. unfold LazyList_fetch.
  assert (Hpage : (_get_more (_last_key ll) (_value_dict ll) w).1.1
                  = Return ([], JNull, false))
    by (rewrite get_more_result; reflexivity).
  destruct (_get_more (_last_key ll) (_value_dict ll) w) as [[o vd] w1].
  simpl in Hpage. subst o. simpl. unfold bind at 1. simpl.
  by apply IH.
Qed.

(** ** Resource identity resolver *)

Section String_facts.

Lemma append_cons (c : ascii) (s r : string) : String c s ++ r = String c (s ++ r).
Proof. reflexivity. Qed.

Lemma append_empty (s : string) : s ++ "" = s.
Proof.
  induction s as [|c s IH]; [reflexivity|].
  by rewrite append_cons, IH.
Qed.

Lemma prefix_append (rp rest : string) : String.prefix rp (rp ++ rest) = true.
Proof.
  induction rp as [|c rp IH].
  - by destruct rest.
  - rewrite append_cons. simpl.
    destruct (ascii_dec c c) as [_|Hne]; [exact IH|by destruct Hne].
Qed.

Lemma drop_chars_append (rp rest : string) :
  drop_chars (String.length rp) (rp ++ rest) = rest.
Proof.
  induction rp as [|c rp IH]; [reflexivity|].
  rewrite append_cons. simpl. exact IH.
Qed.

Lemma split_segment (s : string) : segment s -> split "/" s = [s].
Proof.
  unfold segment. induction s as [|c s IH]; simpl; [reflexivity|].
  intros Hs. apply orb_false_iff in Hs as [Hc Hs].
  rewrite Hc, (IH Hs). reflexivity.
Qed.

Lemma split_segment_slash (s r : string) :
  segment s -> split "/" (s ++ String "/" r) = s :: split "/" r.
Proof.
  unfold segment. induction s as [|c s IH]; [reflexivity|].
  rewrite append_cons. simpl.
  intros Hs. apply orb_false_iff in Hs as [Hc Hs].
  rewrite Hc, (IH Hs). reflexivity.
Qed.

Lemma location_of_cons (c i : string) (pairs : list (string * string)) :
  location_of ((c, i) :: pairs) =
  String "/" (c ++ String "/" (i ++ location_of pairs)).
Proof. reflexivity. Qed.

Lemma split_segment_location (s : string) (pairs : list (string * string)) :
  segment s ->
  split "/" (s ++ location_of pairs) = s :: tail (split "/" (location_of pairs)).
Proof.
  intros Hs. destruct pairs as [|[c i] pairs].
  - simpl location_of. rewrite append_empty. by apply split_segment.
  - rewrite location_of_cons. by rewrite split_segment_slash.
Qed.

(** The segments of a well-formed location path are its pairs in order. *)
Lemma tail_split_location (pairs : list (string * string)) :
  Forall (fun p => segment p.1 /\ segment p.2) pairs ->
  tail (split "/" (location_of pairs)) = pairs ≫= (fun p => [p.1; p.2]).
Proof.
  induction 1 as [|[c i] pairs [Hc Hi] _ IH]; [reflexivity|].
  simpl in Hc, Hi. rewrite location_of_cons.
  change (split "/" (String "/" ?x)) with ("" :: split "/" x).
  simpl tail.
  rewrite split_segment_slash by exact Hc.
  rewrite split_segment_location by exact Hi.
  by rewrite IH.
Qed.
End String_facts.

Section Resolver_facts.

Lemma foldl_record_pair_Raise (e : exn) (pairs : list (string * string)) :
  foldl record_pair (Raise e) pairs = Raise e.
Proof. induction pairs as [|p pairs IH]; simpl; [reflexivity|exact IH]. Qed.

Lemma walk_chunks_pairs (pairs : list (string * string)) (rv : gmap string string) :
  walk_chunks (pairs ≫= (fun p => [p.1; p.2])) rv
  = foldl record_pair (Return rv) pairs.
Proof.
  revert rv. induction pairs as [|[c i] pairs IH]; intros rv; simpl; [reflexivity|].
  unfold _plural_to_singular.
  destruct (kv !! c) as [s|]; simpl.
  - apply IH.
  - by rewrite foldl_record_pair_Raise.
Qed.

Lemma kv_unknown (name : string) :
  name ∉ ["entities"; "alarms"; "checks"; "notifications"; "notification_plans"] ->
  kv !! name = None.
Proof. intros Hname. by apply not_elem_of_list_to_map_1. Qed.

Lemma walk_chunks_unknown (chunks : list string) (rv : gmap string string)
    (i : nat) (c : string) :
  chunks !! (2 * i)%nat = Some c ->
  kv !! c = None ->
  exists (j : nat) (c' : string),
    (j <= i)%nat /\ chunks !! (2 * j)%nat = Some c' /\ kv !! c' = None /\
    walk_chunks chunks rv = Raise (KeyError c').
Proof.
  revert chunks rv. induction i as [|i IH]; intros chunks rv Hc Hkv.
  - destruct chunks as [|x chunks]; [discriminate|].
    simpl in Hc. injection Hc as ->.
    exists 0%nat, c. repeat split; [lia|done|].
    simpl. unfold _plural_to_singular. by rewrite Hkv.
  - destruct chunks as [|x [|y chunks]]; try discriminate.
    replace (2 * S i)%nat with (S (S (2 * i))) in Hc by lia. simpl in Hc.
    destruct (kv !! x) as [s|] eqn:Hx.
    + destruct (IH chunks (<[to_underscore_separated (s ++ "_id") := y]> rv) Hc Hkv)
        as (j & c' & Hj & Hc' & Hkv' & Hwalk).
      exists (S j), c'. repeat split; [lia| |done|].
      * replace (2 * S j)%nat with (S (S (2 * j))) by lia. exact Hc'.
      * simpl. unfold _plural_to_singular at 1. rewrite Hx. simpl. exact Hwalk.
    + exists 0%nat, x. repeat split; [lia|done|].
      simpl. unfold _plural_to_singular. by rewrite Hx.
Qed.
End Resolver_facts.

Section Resolver_claims.
Context `{PyEnv}.

(** C2. Resolution strips the request-path prefix when the path starts
    with it, splits the rest on [/], drops the leading empty segment and
    records, pair after pair, the id under the underscore-separated
    singular name followed by [_id]. The path
    [/v1.0/12345/entities/enABC/checks/chDEF] with the prefix
    [/v1.0/12345] resolves to [entity_id = enABC] and [check_id = chDEF]
    and nothing else. *)
Theorem url_to_obj_ids_pairs :
  (forall (rp url : string) (pairs : list (string * string)),
     Forall (fun p => segment p.1 /\ segment p.2) pairs ->
     urlparse_path url = rp ++ location_of pairs \/
     (startswith (urlparse_path url) rp = false /\
      urlparse_path url = location_of pairs) ->
     _url_to_obj_ids rp url = resolve_pairs pairs) /\
  (forall url : string,
     urlparse_path url = "/v1.0/12345/entities/enABC/checks/chDEF" ->
     _url_to_obj_ids "/v1.0/12345" url =
     Return (<["check_id" := "chDEF"]> {["entity_id" := "enABC"]})).
Proof.
  assert (Hgen : forall (rp url : string) (pairs : list (string * string)),
     Forall (fun p => segment p.1 /\ segment p.2) pairs ->
     urlparse_path url = rp ++ location_of pairs \/
     (startswith (urlparse_path url) rp = false /\
      urlparse_path url = location_of pairs) ->
     _url_to_obj_ids rp url = resolve_pairs pairs).
  { intros rp url pairs Hsegs Hpath.
    unfold _url_to_obj_ids, chunks_of, resolve_pairs.
    destruct Hpath as [->|[-> ->]].
    - unfold startswith. rewrite prefix_append, drop_chars_append.
      rewrite tail_split_location by exact Hsegs. apply walk_chunks_pairs.
    - rewrite tail_split_location by exact Hsegs. apply walk_chunks_pairs. }
  split; [exact Hgen|].
  intros url Hurl.
  rewrite (Hgen "/v1.0/12345" url [("entities", "enABC"); ("checks", "chDEF")]).
  - vm_compute. reflexivity.
  - repeat constructor.
  - left. exact Hurl.
Qed.

(** C9. A location path with a collection name outside the lookup table
    (a name at an even position among the segments that follow the
    prefix) does not resolve: the table lookup raises [KeyError] for a
    name that the table does not hold. *)
Theorem url_to_obj_ids_unknown_collection (rp url : string) (i : nat) (c : string) :
  chunks_of rp url !! (2 * i)%nat = Some c ->
  c ∉ ["entities"; "alarms"; "checks"; "notifications"; "notification_plans"] ->
  exists (j : nat) (c' : string),
    (j <= i)%nat /\ chunks_of rp url !! (2 * j)%nat = Some c' /\
    kv !! c' = None /\
    _url_to_obj_ids rp url = Raise (KeyError c').
Proof.
  intros Hc Hunknown. unfold _url_to_obj_ids.
  eapply walk_chunks_unknown; [exact Hc|by apply kv_unknown].
Qed.
End Resolver_claims.

(** ** Create and update *)

Section Strip_facts.

Lemma strip_None_lookup (ks : list string) (d : gmap string json) :
  NoDup ks ->
  (forall k, k ∈ ks -> is_Some (d !! k)) ->
  exists d',
    strip_None ks d = (Return tt, d') /\
    forall j,
      d' !! j =
      if bool_decide (j ∈ ks)
      then d !! j ≫= (fun v => if is_None v then None else Some v)
      else d !! j.
Proof.
  revert d. induction ks as [|k ks IH]; intros d Hnodup Hdom.
  - exists d. split; [reflexivity|]. intros j.
    rewrite bool_decide_eq_false_2; [reflexivity|apply not_elem_of_nil].
  - apply NoDup_cons in Hnodup as [Hk Hnodup].
    destruct (Hdom k) as [v Hv]; [by left|].
    simpl. rewrite Hv.
    set (d1 := if is_None v then delete k d else d).
    assert (Hother : forall j, j <> k -> d1 !! j = d !! j).
    { intros j Hj. subst d1. destruct (is_None v); [|reflexivity].
      by rewrite lookup_delete_ne. }
    destruct (IH d1 Hnodup) as (d' & Hrun & Hlook).
    { intros k' Hk'. rewrite Hother; [apply Hdom; by right|].
      intros ->. contradiction. }
    exists d'. split; [exact Hrun|]. intros j. rewrite Hlook.
    destruct (decide (j = k)) as [->|Hj].
    + rewrite (bool_decide_eq_false_2 _ Hk).
      rewrite bool_decide_eq_true_2 by (by left).
      rewrite Hv. simpl. subst d1. destruct (is_None v); [|exact Hv].
      apply lookup_delete_eq.
    + rewrite Hother by exact Hj.
      destruct (decide (j ∈ ks)) as [Hin|Hin].
      * rewrite !bool_decide_eq_true_2; [reflexivity|by right|exact Hin].
      * rewrite !bool_decide_eq_false_2; [reflexivity| |exact Hin].
        intros Hin'. apply elem_of_cons in Hin' as [?|?]; contradiction.
Qed.

Lemma without_None_lookup (data : gmap string json) (k : string) :
  without_None data !! k =
  match data !! k with
  | Some v => if is_None v then None else Some v
  | None => None
  end.
Proof.
  unfold without_None. destruct (data !! k) as [v|] eqn:Hk.
  - destruct (is_None v) eqn:Hv.
    + apply map_lookup_filter_None_2. right. intros x Hx. simpl.
      rewrite Hk in Hx. injection Hx as <-. by rewrite Hv.
    + apply map_lookup_filter_Some_2; [exact Hk|exact Hv].
  - apply map_lookup_filter_None_2. by left.
Qed.

(** The loop over [data.keys()] leaves [data] without its null-valued
    keys, and never raises. *)
Lemma strip_None_keys (data : gmap string json) :
  strip_None (keys data) data = (Return tt, without_None data).
Proof.
  destruct (strip_None_lookup (keys data) data) as (d' & Hrun & Hlook).
  - apply NoDup_fst_map_to_list.
  - intros k Hk. unfold keys in Hk.
    apply list_elem_of_fmap in Hk as ([k' v] & -> & Hkv).
    apply elem_of_map_to_list in Hkv. by exists v.
  - rewrite Hrun. f_equal. apply map_eq. intros j.
    rewrite Hlook, without_None_lookup.
    destruct (data !! j) as [v|] eqn:Hj.
    + rewrite bool_decide_eq_true_2; [reflexivity|].
      unfold keys. apply list_elem_of_fmap. exists (j, v).
      split; [reflexivity|]. by apply elem_of_map_to_list.
    + by destruct (bool_decide (j ∈ keys data)).
Qed.
End Strip_facts.

Section Create_update_facts.
Context `{PyEnv} `{Service}.
Variable request_path : string.

Lemma create_unified {T} (url : string) (data : gmap string json)
    (coerce : gmap string string -> M T) (w : world) :
  _create request_path url data coerce w =
  create_or_update request_path "POST" CREATED url data coerce w.
Proof.
  unfold _create, create_or_update. rewrite strip_None_keys.
  unfold bind.
  destruct (request url None (JObj (without_None data)) None "POST" false w)
    as [[resp|e|] w1]; try reflexivity.
  destruct (status resp =? CREATED); [|reflexivity].
  destruct (headers resp !! "location") as [loc|]; simpl; [|reflexivity].
  destruct (String.eqb loc ""); simpl; [reflexivity|].
  unfold lift. by destruct (_url_to_obj_ids request_path loc).
Qed.

Lemma update_unified {T} (url : string) (data : gmap string json)
    (coerce : gmap string string -> M T) (w : world) :
  _update request_path url data coerce w =
  create_or_update request_path "PUT" NO_CONTENT url data coerce w.
Proof.
  unfold _update, create_or_update. rewrite strip_None_keys.
  unfold bind.
  destruct (request url None (JObj (without_None data)) None "PUT" false w)
    as [[resp|e|] w1]; try reflexivity.
  destruct (status resp =? NO_CONTENT); [|reflexivity].
  destruct (headers resp !! "location") as [loc|]; simpl; [|reflexivity].
  destruct (String.eqb loc ""); simpl; [reflexivity|].
  unfold lift. by destruct (_url_to_obj_ids request_path loc).
Qed.

(** The unified helper, case by case on the answer of the transport. *)
Lemma create_or_update_cases {T} (method : string) (expected : Z)
    (url : string) (data : gmap string json)
    (coerce : gmap string string -> M T) (w : world) (a : reply) (s : svc) :
  method = "POST" \/ method = "PUT" ->
  base_request (write_request method url data) (server w) = (a, s) ->
  let w1 := exchanged w (write_request method url data) a s in
  let run := create_or_update request_path method expected url data coerce w in
  (forall e, a = Raised e -> run = (Raise e, without_None data, w1)) /\
  (forall resp, a = Responded resp -> status resp = expected ->
     no_location (headers resp !! "location") = true ->
     run = (Raise (LibcloudError "Missing location header"),
            without_None data, w1)) /\
  (forall resp location, a = Responded resp -> status resp = expected ->
     headers resp !! "location" = Some location -> location <> "" ->
     run = ((bind (lift (_url_to_obj_ids request_path location)) coerce w1).1,
            without_None data,
            (bind (lift (_url_to_obj_ids request_path location)) coerce w1).2)) /\
  (forall resp, a = Responded resp -> status resp <> expected ->
     run = (Raise (LibcloudError ("Unexpected status code: "
                                  ++ pct_s (JNum (status resp)))),
            without_None data, w1)).
Proof.
  intros Hmethod Hq w1 run.
  assert (Hreq : request url None (JObj (without_None data)) None method false w =
                 (match a with Responded resp => Return resp | Raised e => Raise e end,
                  w1)).
  { destruct Hmethod as [-> | ->].
    - rewrite request_POST. by apply super_request_exchanged.
    - rewrite request_PUT. by apply super_request_exchanged. }
  subst run. unfold create_or_update, bind. rewrite Hreq.
  repeat split.
  - intros e ->. reflexivity.
  - intros resp -> Hst Hloc. rewrite Hst, Z.eqb_refl.
    unfold no_location in Hloc.
    destruct (headers resp !! "location") as [loc|]; [|reflexivity].
    rewrite Hloc. reflexivity.
  - intros resp loc -> Hst Hloc Hne. rewrite Hst, Z.eqb_refl, Hloc.
    apply String.eqb_neq in Hne. rewrite Hne.
    unfold lift. by destruct (_url_to_obj_ids request_path loc) as [ids|e|];
      simpl; try destruct (coerce ids w1).
  - intros resp -> Hst. apply Z.eqb_neq in Hst. rewrite Hst. reflexivity.
Qed.
End Create_update_facts.

Section Create_update_claims.
Context `{PyEnv} `{Service}.
Variable request_path : string.

(** C6. [_create] sends one request, the POST [write_request] whose
    payload is the serialised dictionary without its null-valued keys
    (for [label = x, who = null] the payload holds [label] and no [who]),
    and then: a transport failure is passed on; status 201 without a
    location header fails with the missing-location error; status 201
    with a location header gives the constructor applied to the resolved
    location ids; any other status fails with the unexpected-status
    error. *)
Theorem create_behaviour {T} (url : string) (data : gmap string json)
    (coerce : gmap string string -> M T) (w : world) (a : reply) (s : svc) :
  base_request (write_request "POST" url data) (server w) = (a, s) ->
  let q := write_request "POST" url data in
  let w1 := exchanged w q a s in
  let run := _create request_path url data coerce w in
  (req_method q = "POST" /\
   req_data q = JStr (json_dumps (JObj (without_None data))) /\
   (forall k, without_None data !! k =
              match data !! k with
              | Some v => if is_None v then None else Some v
              | None => None
              end) /\
   without_None (<["label" := JStr "x"]> {["who" := JNull]})
     = {["label" := JStr "x"]}) /\
  (forall e, a = Raised e -> run = (Raise e, without_None data, w1)) /\
  (forall resp, a = Responded resp -> status resp = CREATED ->
     no_location (headers resp !! "location") = true ->
     run = (Raise (LibcloudError "Missing location header"),
            without_None data, w1)) /\
  (forall resp location, a = Responded resp -> status resp = CREATED ->
     headers resp !! "location" = Some location -> location <> "" ->
     run = ((bind (lift (_url_to_obj_ids request_path location)) coerce w1).1,
            without_None data,
            (bind (lift (_url_to_obj_ids request_path location)) coerce w1).2)) /\
  (forall resp, a = Responded resp -> status resp <> CREATED ->
     run = (Raise (LibcloudError ("Unexpected status code: "
                                  ++ pct_s (JNum (status resp)))),
            without_None data, w1)).
Proof.
  intros Hq q w1 run. split.
  - split; [reflexivity|]. split; [reflexivity|].
    split; [apply without_None_lookup|].
    apply map_eq. intros k. rewrite without_None_lookup.
    destruct (decide (k = "label")) as [->|Hl]; [reflexivity|].
    destruct (decide (k = "who")) as [->|Hw]; [reflexivity|].
    by simplify_map_eq.
  - subst run. rewrite create_unified.
    apply create_or_update_cases; [by left|exact Hq].
Qed.

(** C7. [_update] is [_create] with PUT for POST and status 204 for
    status 201: both are the one helper [create_or_update], which strips
    the same keys, fails the same way without a location header and
    resolves and reconstructs the same way. *)
Theorem update_like_create {T} (url : string) (data : gmap string json)
    (coerce : gmap string string -> M T) (w : world) :
  _create request_path url data coerce w =
    create_or_update request_path "POST" CREATED url data coerce w /\
  _update request_path url data coerce w =
    create_or_update request_path "PUT" NO_CONTENT url data coerce w.
Proof. split; [apply create_unified|apply update_unified]. Qed.

(** C10. [_create] and [_update] change the dictionary of the caller
    itself: whatever the outcome of the call, the dictionary is left
    without the keys that were bound to null, and with every other key
    bound as before. *)
Theorem create_update_strip_in_place {T} (url : string)
    (data : gmap string json) (coerce : gmap string string -> M T) (w : world) :
  (_create request_path url data coerce w).1.2 = without_None data /\
  (_update request_path url data coerce w).1.2 = without_None data /\
  forall k, without_None data !! k =
            match data !! k with
            | Some v => if is_None v then None else Some v
            | None => None
            end.
Proof.
  rewrite create_unified, update_unified. unfold create_or_update.
  repeat split.
  - by destruct (bind _ _ w).
  - by destruct (bind _ _ w).
  - apply without_None_lookup.
Qed.
End Create_update_claims.

(** ** Response decoder *)

Section Decoder_claims.
Context `{PyEnv}.

Lemma parse_body_no_validation_error (r : response) (code type message details : json) :
  parse_body r <> Raise (RackspaceMonitoringValidationError code type message details).
Proof.
  unfold parse_body.
  destruct (String.eqb (body r) ""); [discriminate|].
  destruct (bool_decide (is_Some (headers r !! "content-type"))); simpl.
  - destruct (headers r !! "content-type") as [ct|]; simpl; [|discriminate].
    repeat match goal with
           | |- context [if ?b then _ else _] => destruct b
           | |- context [match json_loads ?x with _ => _ end] => destruct (json_loads x)
           end; discriminate.
  - destruct (bool_decide (is_Some (headers r !! "Content-Type"))); simpl;
      [|discriminate].
    destruct (headers r !! "Content-Type") as [ct|]; simpl; [|discriminate].
    repeat match goal with
           | |- context [if ?b then _ else _] => destruct b
           | |- context [match json_loads ?x with _ => _ end] => destruct (json_loads x)
           end; discriminate.
Qed.

Lemma getitem_no_validation_error (v : json) (k : string) (code type message details : json) :
  getitem v k <> Raise (RackspaceMonitoringValidationError code type message details).
Proof.
  unfold getitem. destruct v as [| | | | |o]; try discriminate.
  destruct (o !! k); discriminate.
Qed.

Lemma getitem_Return (v : json) (k : string) (x : json) :
  getitem v k = Return x <-> exists o, v = JObj o /\ o !! k = Some x.
Proof.
  split.
  - destruct v as [| | | | |o]; simpl; try discriminate.
    destruct (o !! k) as [y|] eqn:Hk; [|discriminate].
    intros Hx. injection Hx as <-. eauto.
  - intros (o & -> & Hk). simpl. by rewrite Hk.
Qed.

Lemma split_without_separator (sep : ascii) (s : string) :
  contains_char sep s = false -> split sep s = [s].
Proof.
  induction s as [|c s IH]; simpl; [reflexivity|].
  intros Hs. apply orb_false_iff in Hs as [Hc Hs].
  rewrite Hc, (IH Hs). reflexivity.
Qed.

(** The content type up to the first [;], as [parse_body] computes it. *)
Lemma media_type_computed (ct : string) :
  (if contains_char ";" ct
   then match split ";" ct with x :: _ => x | [] => ct end
   else ct) = media_type ct.
Proof.
  unfold media_type. destruct (contains_char ";" ct) eqn:Hct; [reflexivity|].
  by rewrite split_without_separator.
Qed.

(** [parse_body] by the body, the declared content type and the JSON
    decoder. *)
Lemma parse_body_cases (r : response) :
  parse_body r =
  if String.eqb (body r) "" then Return JNull
  else
    match content_type_of r with
    | None => Raise (LibcloudError "Missing content-type header")
    | Some ct =>
        if String.eqb (media_type ct) "application/json" then
          match json_loads (body r) with
          | Some data => Return data
          | None => Raise (MalformedResponseError "Failed to parse JSON" (body r))
          end
        else Return (JStr (body r))
    end.
Proof.
  unfold parse_body, content_type_of.
  destruct (String.eqb (body r) ""); [reflexivity|].
  destruct (headers r !! "content-type") as [ct|] eqn:Hlow.
  - rewrite bool_decide_eq_true_2 by eauto. simpl. rewrite Hlow. simpl.
    rewrite media_type_computed.
    by destruct (String.eqb (media_type ct) "application/json"),
               (String.eqb (media_type ct) "text/plain").
  - rewrite bool_decide_eq_false_2 by (by intros [? ?]).
    destruct (headers r !! "Content-Type") as [ct|] eqn:Hcap.
    + rewrite bool_decide_eq_true_2 by eauto. simpl. rewrite Hcap. simpl.
      rewrite media_type_computed.
      by destruct (String.eqb (media_type ct) "application/json"),
                 (String.eqb (media_type ct) "text/plain").
    + rewrite bool_decide_eq_false_2 by (by intros [? ?]). reflexivity.
Qed.

(** [parse_body] gives a JSON object exactly for a body that is declared
    as JSON and is the JSON text of the object. *)
Lemma parse_body_object (r : response) (o : gmap string json) :
  parse_body r = Return (JObj o) <-> json_body r (JObj o).
Proof.
  rewrite parse_body_cases. unfold json_body. split.
  - destruct (String.eqb (body r) "") eqn:Hbody; [discriminate|].
    apply String.eqb_neq in Hbody.
    destruct (content_type_of r) as [ct|]; [|discriminate].
    destruct (String.eqb (media_type ct) "application/json") eqn:Hct;
      [|discriminate].
    apply String.eqb_eq in Hct.
    destruct (json_loads (body r)) as [v|]; [|discriminate].
    intros Hv. injection Hv as ->. simpl. by rewrite Hct.
  - intros (Hbody & Hct & Hloads).
    apply String.eqb_neq in Hbody. rewrite Hbody.
    destruct (content_type_of r) as [ct|]; [|discriminate].
    simpl in Hct. injection Hct as ->. simpl. by rewrite Hloads.
Qed.

Lemma parse_body_json (r : response) (v : json) :
  json_body r v -> parse_body r = Return v.
Proof.
  rewrite parse_body_cases. intros (Hbody & Hct & Hloads).
  apply String.eqb_neq in Hbody. rewrite Hbody.
  destruct (content_type_of r) as [ct|]; [|discriminate].
  simpl in Hct. injection Hct as ->. simpl. by rewrite Hloads.
Qed.

#[local] Ltac no_validation_error Hget Herr :=
  exfalso; injection Herr as ->;
  exact (getitem_no_validation_error _ _ _ _ _ _ Hget).

(** C8 (as the code has it). For every response, [parse_error] raises a
    validation error with the fields [code], [type], [message] and
    [details] exactly when the status is 400 and the response has a body,
    declared as JSON, that is the JSON text of an object holding these
    four fields with these values. With any other status [parse_error]
    gives what the body decoder gives, for a JSON body the decoded body
    unchanged. Status 400 with the JSON body
    [code = 400, type = invalidJson, message = bad input, details = {}]
    raises the validation error with these four fields. *)
Theorem parse_error_validation (r : response) :
  (forall code type message details : json,
     parse_error r =
       Raise (RackspaceMonitoringValidationError code type message details) <->
     status r = BAD_REQUEST /\
     exists o, json_body r (JObj o) /\
       o !! "code" = Some code /\ o !! "type" = Some type /\
       o !! "message" = Some message /\ o !! "details" = Some details) /\
  (status r <> BAD_REQUEST ->
     parse_error r = parse_body r /\
     forall v, json_body r v -> parse_error r = Return v) /\
  (status r = BAD_REQUEST ->
   json_body r (JObj (list_to_map
       [("code", JNum 400); ("type", JStr "invalidJson");
        ("message", JStr "bad input"); ("details", JObj ∅)])) ->
   parse_error r =
   Raise (RackspaceMonitoringValidationError
            (JNum 400) (JStr "invalidJson") (JStr "bad input") (JObj ∅))).
Proof.
  assert (Hraise : forall (o : gmap string json) (code type message details : json),
     status r = BAD_REQUEST ->
     json_body r (JObj o) ->
     o !! "code" = Some code -> o !! "type" = Some type ->
     o !! "message" = Some message -> o !! "details" = Some details ->
     parse_error r =
     Raise (RackspaceMonitoringValidationError code type message details)).
  { intros o code type message details Hst Hbody Hc Ht Hm Hd.
    unfold parse_error. rewrite (parse_body_json r _ Hbody), Hst. simpl.
    by rewrite Hm, Hc, Ht, Hd. }
  split; [|split].
  - intros code type message details. split.
    + intros Herr. unfold parse_error in Herr.
      destruct (parse_body r) as [b|e|] eqn:Hbody; simpl in Herr;
        [| |discriminate].
      * destruct (status r =? BAD_REQUEST) eqn:Hst; [|discriminate].
        apply Z.eqb_eq in Hst. split; [exact Hst|].
        destruct (getitem b "message") as [m|e|] eqn:Hm; simpl in Herr;
          [|no_validation_error Hm Herr|discriminate].
        destruct (getitem b "code") as [c|e|] eqn:Hc; simpl in Herr;
          [|no_validation_error Hc Herr|discriminate].
        destruct (getitem b "type") as [t|e|] eqn:Ht; simpl in Herr;
          [|no_validation_error Ht Herr|discriminate].
        destruct (getitem b "details") as [d|e|] eqn:Hd; simpl in Herr;
          [|no_validation_error Hd Herr|discriminate].
        injection Herr as -> -> -> ->.
        apply getitem_Return in Hm as (o & -> & Hm).
        apply getitem_Return in Hc as (o1 & Ho1 & Hc). injection Ho1 as <-.
        apply getitem_Return in Ht as (o2 & Ho2 & Ht). injection Ho2 as <-.
        apply getitem_Return in Hd as (o3 & Ho3 & Hd). injection Ho3 as <-.
        exists o. split; [by apply parse_body_object|done].
      * exfalso. injection Herr as ->.
        exact (parse_body_no_validation_error _ _ _ _ _ Hbody).
    + intros (Hst & o & Hbody & Hc & Ht & Hm & Hd). by eapply Hraise.
  - intros Hst. apply Z.eqb_neq in Hst.
    assert (Hsame : parse_error r = parse_body r).
    { unfold parse_error. destruct (parse_body r); simpl; by rewrite ?Hst. }
    split; [exact Hsame|].
    intros v Hv. rewrite Hsame. by apply parse_body_json.
  - intros Hst Hbody. by eapply Hraise.
Qed.
End Decoder_claims.

(** ** Cascading delete *)

Section Delete_facts.
Context `{PyEnv} `{Service}.

Lemma answered_cons (q : http_request) (x : http_request * reply)
    (tr : list (http_request * reply)) :
  answered q tr -> answered q (x :: tr).
Proof. intros [resp Hq]. exists resp. by right. Qed.

Lemma answered_app_r (q : http_request) (tr1 tr2 : list (http_request * reply)) :
  answered q tr2 -> answered q (tr1 ++ tr2)%list.
Proof. intros [resp Hq]. exists resp. apply elem_of_app. by right. Qed.

Lemma answered_app_l (q : http_request) (tr1 tr2 : list (http_request * reply)) :
  answered q tr1 -> answered q (tr1 ++ tr2)%list.
Proof. intros [resp Hq]. exists resp. apply elem_of_app. by left. Qed.

(** A loop that sends one DELETE per item, against a service that
    answers each of them: the loop returns, and the trace grows by the
    exchanges. *)
Lemma for_each_deleted {T} (action : T -> string) (items : list T)
    (s s' : svc) (tr t : list (http_request * reply)) :
  deleted (fun x => delete_request (action x)) items s tr s' ->
  for_each items
    (fun x => bind (bind (request (action x) None (JStr "") None "DELETE" false)
                         (fun resp => ret (status resp =? NO_CONTENT)))
                   (fun _ => ret tt))
    {| trace := t; server := s |}
  = (Return tt, {| trace := (t ++ tr)%list; server := s' |}).
Proof.
  intros Hdel. revert t.
  induction Hdel as [s|x xs s resp s1 tr s2 Hq _ IH]; intros t.
  - simpl. unfold ret. by rewrite app_nil_r.
  - simpl. unfold bind at 1 2 3. rewrite request_DELETE.
    rewrite (super_request_exchanged (delete_request (action x))
               {| trace := t; server := s |} _ _ Hq). simpl.
    unfold exchanged. simpl. rewrite IH. by rewrite <- app_assoc.
Qed.

Lemma deleted_answered {T} (del : T -> http_request) (items : list T)
    (s s' : svc) (tr : list (http_request * reply)) :
  deleted del items s tr s' ->
  (forall x, x ∈ items -> answered (del x) tr) /\
  Forall (fun e => exists x, x ∈ items /\ e.1 = del x) tr.
Proof.
  induction 1 as [s|x xs s resp s1 tr s2 Hq _ [IHa IHf]].
  - split; [|constructor]. intros x Hx. by apply elem_of_nil in Hx.
  - split.
    + intros y Hy. apply elem_of_cons in Hy as [->|Hy].
      * exists resp. by left.
      * by apply answered_cons, IHa.
    + constructor.
      * exists x. split; [by left|reflexivity].
      * eapply Forall_impl; [exact IHf|].
        intros e (y & Hy & He). exists y. split; [by right|exact He].
Qed.

(** A descriptor without extra parameters is not changed by a fetch. *)
Lemma get_more_no_params {T} (last_key : json) (vd : value_dict T) (w : world) :
  params (ctx vd) = None -> (_get_more last_key vd w).1.2 = vd.
Proof.
  intros Hp. unfold _get_more.
  destruct (truthy (if negb (truthy last_key) then start_marker (ctx vd)
                    else last_key));
    match goal with
    | |- context [request ?a ?b ?c ?d ?e ?f w] => destruct (request a b c d e f w)
    end; simpl; [|reflexivity].
  unfold store_params. by rewrite Hp.
Qed.

(** The fetch of a page that the service serves. *)
Lemma get_more_page_of {T} (cursor : json) (vd : value_dict T) (w : world)
    (resp : response) (s1 : svc) (items : list T) (next : json) :
  params (ctx vd) = None ->
  base_request (page_request cursor vd) (server w) = (Responded resp, s1) ->
  page_of vd resp items next ->
  _get_more cursor vd w =
  (Return (items, next, is_None next), vd,
   exchanged w (page_request cursor vd) (Responded resp) s1).
Proof.
  intros Hp Hq (Hst & f & o & vs & md & Hf & Hbody & Hvs & Hmd & Hmap & ->).
  pose proof (get_more_result cursor vd w) as Hres.
  pose proof (get_more_world cursor vd w) as Hw.
  pose proof (get_more_no_params cursor vd w Hp) as Hvd.
  destruct (_get_more cursor vd w) as [[o' vd'] w']. simpl in *. subst vd' w'.
  rewrite Hq in Hres |- *. simpl in *. rewrite Hst in Hres. simpl in Hres.
  unfold loads in Hres. rewrite Hbody in Hres. simpl in Hres.
  rewrite Hf, Hvs in Hres. simpl in Hres. rewrite Hmap in Hres. simpl in Hres.
  rewrite Hmd in Hres. simpl in Hres. by rewrite Hres.
Qed.

(** Iterating a lazy list against a service that lists its items in [n]
    pages and answers the DELETE of each: with fuel for [n] pages the
    iteration returns, and the trace grows by the exchanges. *)
Lemma LazyList_for_each_listed {T} (vd : value_dict T) (action : T -> string)
    (cursor : json) (s s' : svc) (n : nat) (items : list T)
    (tr : list (http_request * reply)) :
  params (ctx vd) = None ->
  listed vd (fun x => delete_request (action x)) cursor s n items tr s' ->
  forall (fuel : nat) (t : list (http_request * reply)),
    (n <= fuel)%nat ->
    LazyList_for_each fuel
      {| _last_key := cursor; _exhausted := false; _value_dict := vd |}
      (fun x => bind (bind (request (action x) None (JStr "") None "DELETE" false)
                           (fun resp => ret (status resp =? NO_CONTENT)))
                     (fun _ => ret tt))
      {| trace := t; server := s |}
    = (Return tt, {| trace := (t ++ tr)%list; server := s' |}).
Proof.
  intros Hp Hlisted.
  induction Hlisted as
    [cursor s resp s1 items next tr s2 Hq Hpage Hnext Hdel
    |cursor s resp s1 items next tr s2 n rest tr' s3 Hq Hpage Hnext Hdel _ IH];
    intros fuel t Hfuel.
  - destruct fuel as [|fuel]; [lia|]. simpl.
    unfold bind at 1. unfold LazyList_fetch. simpl.
    rewrite (get_more_page_of cursor vd {| trace := t; server := s |}
               resp s1 items next Hp Hq Hpage).
    unfold bind at 1. unfold exchanged. simpl.
    rewrite (for_each_deleted action items s1 s2 tr _ Hdel).
    rewrite Hnext. destruct fuel; simpl; unfold ret; by rewrite <- app_assoc.
  - destruct fuel as [|fuel]; [lia|]. simpl.
    unfold bind at 1. unfold LazyList_fetch. simpl.
    rewrite (get_more_page_of cursor vd {| trace := t; server := s |}
               resp s1 items next Hp Hq Hpage).
    unfold bind at 1. unfold exchanged. simpl.
    rewrite (for_each_deleted action items s1 s2 tr _ Hdel).
    rewrite Hnext. rewrite IH by lia.
    by rewrite <- !app_assoc.
Qed.

(** What the exchanges of a listing are: page fetches, and the DELETE of
    every item listed. *)
Lemma listed_answered {T} (vd : value_dict T) (del : T -> http_request)
    (cursor : json) (s s' : svc) (n : nat) (items : list T)
    (tr : list (http_request * reply)) :
  listed vd del cursor s n items tr s' ->
  (forall x, x ∈ items -> answered (del x) tr) /\
  Forall (fun e => (exists c, e.1 = page_request c vd) \/
                   (exists x, x ∈ items /\ e.1 = del x)) tr.
Proof.
  induction 1 as
    [cursor s resp s1 items next tr s2 Hq Hpage Hnext Hdel
    |cursor s resp s1 items next tr s2 n rest tr' s3 Hq Hpage Hnext Hdel _ [IHa IHf]].
  - destruct (deleted_answered _ _ _ _ _ Hdel) as [Ha Hf]. split.
    + intros x Hx. by apply answered_cons, Ha.
    + constructor; [left; eauto|].
      eapply Forall_impl; [exact Hf|]. intros e He. by right.
  - destruct (deleted_answered _ _ _ _ _ Hdel) as [Ha Hf]. split.
    + intros x Hx. apply answered_cons. apply elem_of_app in Hx as [Hx|Hx].
      * by apply answered_app_l, Ha.
      * by apply answered_app_r, IHa.
    + constructor; [left; eauto|]. apply Forall_app. split.
      * eapply Forall_impl; [exact Hf|].
        intros e (x & Hx & He). right. exists x.
        split; [apply elem_of_app; by left|exact He].
      * eapply Forall_impl; [exact IHf|].
        intros e [He|(x & Hx & He)]; [by left|]. right. exists x.
        split; [apply elem_of_app; by right|exact He].
Qed.

Lemma delete_entity_unfold (fuel : nat) (entity : Entity.t)
    (ex_delete_children : bool) (w : world) :
  delete_entity (S fuel) entity ex_delete_children w =
  match request (entity_url entity) None (JStr "") None "DELETE" false w with
  | (Return resp, w') => (Return (status resp =? NO_CONTENT), w')
  | (Raise (RackspaceMonitoringValidationError _ e_type _ e_details as e), w') =>
      bind (delete_children fuel entity ex_delete_children e e_type e_details)
           (fun _ => delete_entity fuel entity true) w'
  | (Raise e, w') => (Raise e, w')
  | (OutOfFuel, w') => (OutOfFuel, w')
  end.
Proof. reflexivity. Qed.

(** The handler of [delete_entity] when children are reported and their
    deletion was asked for: clean up, then call [delete_entity] again. *)
Lemma delete_entity_handler (fuel : nat) (entity : Entity.t) (w : world)
    (code message details type : json) (s : svc) :
  base_request (delete_request (entity_url entity)) (server w) =
    (Raised (RackspaceMonitoringValidationError
               code (JStr "childrenExistError") message details), s) ->
  getitem details "type" = Return type ->
  delete_entity (S fuel) entity true w =
  bind (children_cleanup fuel entity type)
       (fun _ => delete_entity fuel entity true)
       (exchanged w (delete_request (entity_url entity))
          (Raised (RackspaceMonitoringValidationError
                     code (JStr "childrenExistError") message details)) s).
Proof.
  intros Hq Htype. rewrite delete_entity_unfold, request_DELETE.
  rewrite (super_request_exchanged _ w _ _ Hq).
  unfold delete_children, children_cleanup, bind, lift. rewrite Htype.
  reflexivity.
Qed.
End Delete_facts.

Section Delete_claims.
Context `{PyEnv} `{Service}.

(** C5 (as the code has it). With child deletion requested, when the
    entity DELETE is answered with a [childrenExistError] validation
    failure, the driver deletes the children that [details.type] names
    and no others, and then calls [delete_entity] again with child
    deletion requested. For the type [Check], against a service that
    lists the checks of the entity in [n] pages and answers the DELETE of
    each, and with fuel for [n] pages: the driver fetches these pages,
    sends the DELETE of every check listed and nothing else, and then
    goes on as [delete_entity] from there. For the type [Alarm] the same
    holds of the alarms. For any other type nothing is deleted before the
    retry. The retry handles a further [childrenExistError] in the same
    way, so the entity DELETE can be sent more than twice. *)
Theorem delete_entity_cascade (fuel n : nat) (entity : Entity.t) (w : world)
    (code message details : json) (s1 : svc) :
  base_request (delete_request (entity_url entity)) (server w) =
    (Raised (RackspaceMonitoringValidationError
               code (JStr "childrenExistError") message details), s1) ->
  let first := (delete_request (entity_url entity),
                Raised (RackspaceMonitoringValidationError
                          code (JStr "childrenExistError") message details)) in
  (forall checks tr s2,
     getitem details "type" = Return (JStr "Check") ->
     listed (_value_dict (list_checks entity JNull))
            (fun c => delete_request (check_url c)) JNull s1 n checks tr s2 ->
     (n <= fuel)%nat ->
     delete_entity (S fuel) entity true w =
       delete_entity fuel entity true
         {| trace := (trace w ++ first :: tr)%list; server := s2 |} /\
     (forall c, c ∈ checks -> answered (delete_request (check_url c)) tr) /\
     Forall (fun e =>
               (exists cursor,
                  e.1 = page_request cursor (_value_dict (list_checks entity JNull))) \/
               (exists c, c ∈ checks /\ e.1 = delete_request (check_url c))) tr) /\
  (forall alarms tr s2,
     getitem details "type" = Return (JStr "Alarm") ->
     listed (_value_dict (list_alarms entity JNull))
            (fun a => delete_request (alarm_url a)) JNull s1 n alarms tr s2 ->
     (n <= fuel)%nat ->
     delete_entity (S fuel) entity true w =
       delete_entity fuel entity true
         {| trace := (trace w ++ first :: tr)%list; server := s2 |} /\
     (forall a, a ∈ alarms -> answered (delete_request (alarm_url a)) tr) /\
     Forall (fun e =>
               (exists cursor,
                  e.1 = page_request cursor (_value_dict (list_alarms entity JNull))) \/
               (exists a, a ∈ alarms /\ e.1 = delete_request (alarm_url a))) tr) /\
  (forall type,
     getitem details "type" = Return type ->
     eq_str type "Check" = false -> eq_str type "Alarm" = false ->
     delete_entity (S fuel) entity true w =
       delete_entity fuel entity true
         {| trace := (trace w ++ [first])%list; server := s1 |}).
Proof.
  intros Hq first. split; [|split].
  - intros checks tr s2 Htype Hlisted Hfuel.
    split; [|by eapply listed_answered].
    rewrite (delete_entity_handler fuel entity w _ _ _ _ _ Hq Htype).
    assert (Hrun : ex_delete_checks fuel entity
                     {| trace := (trace w ++ [first])%list; server := s1 |} =
                   (Return tt, {| trace := ((trace w ++ [first]) ++ tr)%list;
                                  server := s2 |}))
      by exact (LazyList_for_each_listed
                  (_value_dict (list_checks entity JNull)) check_url
                  JNull s1 s2 n checks tr eq_refl Hlisted fuel _ Hfuel).
    change (children_cleanup fuel entity (JStr "Check"))
      with (ex_delete_checks fuel entity).
    unfold bind at 1, exchanged. fold first. rewrite Hrun.
    by rewrite <- app_assoc.
  - intros alarms tr s2 Htype Hlisted Hfuel.
    split; [|by eapply listed_answered].
    rewrite (delete_entity_handler fuel entity w _ _ _ _ _ Hq Htype).
    assert (Hrun : ex_delete_alarms fuel entity
                     {| trace := (trace w ++ [first])%list; server := s1 |} =
                   (Return tt, {| trace := ((trace w ++ [first]) ++ tr)%list;
                                  server := s2 |}))
      by exact (LazyList_for_each_listed
                  (_value_dict (list_alarms entity JNull)) alarm_url
                  JNull s1 s2 n alarms tr eq_refl Hlisted fuel _ Hfuel).
    change (children_cleanup fuel entity (JStr "Alarm"))
      with (ex_delete_alarms fuel entity).
    unfold bind at 1, exchanged. fold first. rewrite Hrun.
    by rewrite <- app_assoc.
  - intros type Htype Hcheck Halarm.
    rewrite (delete_entity_handler fuel entity w _ _ _ _ _ Hq Htype).
    unfold children_cleanup, bind at 1, exchanged. by rewrite Hcheck, Halarm.
Qed.
End Delete_claims.


(** * Further properties of the driver *)

(** ** Response decoder *)

Section Decoder_extras.
Context `{PyEnv}.

Lemma split_head (sep : ascii) (s r : string) :
  contains_char sep s = false ->
  split sep (s ++ String sep r) = s :: split sep r.
Proof.
  induction s as [|c s IH]; intros Hs.
  - change ("" ++ String sep r) with (String sep r). simpl.
    by rewrite Ascii.eqb_refl.
  - rewrite append_cons. simpl in *.
    apply orb_false_iff in Hs as [Hc Hs].
    rewrite Hc, (IH Hs). reflexivity.
Qed.

Lemma contains_char_append (sep : ascii) (s r : string) :
  contains_char sep (s ++ String sep r) = true.
Proof.
  induction s as [|c s IH].
  - change ("" ++ String sep r) with (String sep r). simpl.
    by rewrite Ascii.eqb_refl.
  - rewrite append_cons. simpl. rewrite IH. apply orb_true_r.
Qed.

(** The header that [parse_body] reads: the lower-case one when there
    is one, else the capitalised one. *)
Lemma parse_body_typed (r : response) (ct : string) :
  body r <> "" ->
  headers r !! "content-type" = Some ct \/
  (headers r !! "content-type" = None /\ headers r !! "Content-Type" = Some ct) ->
  parse_body r =
  let content_type :=
    if contains_char ";" ct
    then match split ";" ct with x :: _ => x | [] => ct end
    else ct in
  if String.eqb content_type "application/json" then
    match json_loads (body r) with
    | Some data => Return data
    | None => Raise (MalformedResponseError "Failed to parse JSON" (body r))
    end
  else Return (JStr (body r)).
Proof.
  intros Hbody Hct. unfold parse_body.
  apply String.eqb_neq in Hbody. rewrite Hbody.
  destruct Hct as [Hlow|[Hlow Hcap]].
  - rewrite bool_decide_eq_true_2 by (by rewrite Hlow). simpl. rewrite Hlow. simpl.
    repeat match goal with |- context [if ?b then _ else _] => destruct b end;
      reflexivity.
  - rewrite bool_decide_eq_false_2 by (rewrite Hlow; by intros [? ?]).
    rewrite bool_decide_eq_true_2 by (by rewrite Hcap). simpl. rewrite Hcap. simpl.
    repeat match goal with |- context [if ?b then _ else _] => destruct b end;
      reflexivity.
Qed.

Lemma parse_body_untyped (r : response) :
  body r <> "" ->
  headers r !! "content-type" = None ->
  headers r !! "Content-Type" = None ->
  parse_body r = Raise (LibcloudError "Missing content-type header").
Proof.
  intros Hbody Hlow Hcap. unfold parse_body.
  apply String.eqb_neq in Hbody. rewrite Hbody.
  rewrite !bool_decide_eq_false_2; [reflexivity| |].
  - rewrite Hcap. by intros [? ?].
  - rewrite Hlow. by intros [? ?].
Qed.

(** X1. An empty body decodes to [None] whatever the headers are; a body
    that is not empty and comes with neither a [content-type] nor a
    [Content-Type] header raises the missing-content-type error. *)
Theorem parse_body_empty_or_untyped (r : response) :
  (body r = "" -> parse_body r = Return JNull) /\
  (body r <> "" ->
   headers r !! "content-type" = None ->
   headers r !! "Content-Type" = None ->
   parse_body r = Raise (LibcloudError "Missing content-type header")).
Proof.
  split.
  - intros Hbody. unfold parse_body. by rewrite Hbody.
  - apply parse_body_untyped.
Qed.

(** X2. The media type in front of the first [;] of the content type
    decides how a body is decoded, and the lower-case header wins over
    the capitalised one: [application/json] (with or without parameters)
    is decoded as JSON, the malformed-response error carrying the body
    when that fails; every other media type gives the body as text. *)
Theorem parse_body_by_media_type (r : response) (ct media : string) :
  body r <> "" ->
  headers r !! "content-type" = Some ct \/
  (headers r !! "content-type" = None /\ headers r !! "Content-Type" = Some ct) ->
  contains_char ";" media = false ->
  ct = media \/ (exists parameters, ct = media ++ String ";" parameters) ->
  parse_body r =
  if String.eqb media "application/json" then
    match json_loads (body r) with
    | Some data => Return data
    | None => Raise (MalformedResponseError "Failed to parse JSON" (body r))
    end
  else Return (JStr (body r)).
Proof.
  intros Hbody Hct Hmedia Hshape.
  rewrite (parse_body_typed r ct Hbody Hct). simpl.
  destruct Hshape as [->|[p ->]].
  - by rewrite Hmedia.
  - by rewrite contains_char_append, split_head.
Qed.

(** X3. [parse_body] raises nothing but the missing-content-type error
    (for a non-empty body without either header) and the
    malformed-response error (when the JSON decoder rejects the body). *)
Theorem parse_body_raises_only (r : response) (e : exn) :
  parse_body r = Raise e ->
  (e = LibcloudError "Missing content-type header" /\
   body r <> "" /\
   headers r !! "content-type" = None /\ headers r !! "Content-Type" = None) \/
  (e = MalformedResponseError "Failed to parse JSON" (body r) /\
   json_loads (body r) = None).
Proof.
  intros Hraise.
  destruct (String.eqb (body r) "") eqn:Hbody.
  { unfold parse_body in Hraise. by rewrite Hbody in Hraise. }
  apply String.eqb_neq in Hbody.
  destruct (headers r !! "content-type") as [ct|] eqn:Hlow;
    [|destruct (headers r !! "Content-Type") as [ct|] eqn:Hcap].
  - rewrite (parse_body_typed r ct Hbody (or_introl Hlow)) in Hraise.
    simpl in Hraise. right.
    destruct (String.eqb _ "application/json"); [|discriminate].
    destruct (json_loads (body r)); [discriminate|].
    by injection Hraise as <-.
  - rewrite (parse_body_typed r ct Hbody (or_intror (conj Hlow Hcap))) in Hraise.
    simpl in Hraise. right.
    destruct (String.eqb _ "application/json"); [|discriminate].
    destruct (json_loads (body r)); [discriminate|].
    by injection Hraise as <-.
  - left. rewrite (parse_body_untyped r Hbody Hlow Hcap) in Hraise.
    by injection Hraise as <-.
Qed.
End Decoder_extras.

Section Decoder_errors.
Context `{PyEnv}.

Lemma validation_error_status (r : response) (code type message details : json) :
  parse_error r =
    Raise (RackspaceMonitoringValidationError code type message details) ->
  status r = BAD_REQUEST.
Proof.
  unfold parse_error. intros Herr.
  destruct (parse_body r) as [b|e|] eqn:Hbody; simpl in Herr; [| |discriminate].
  - destruct (status r =? BAD_REQUEST) eqn:Hst; [|discriminate].
    by apply Z.eqb_eq in Hst.
  - exfalso. injection Herr as ->.
    exact (parse_body_no_validation_error _ _ _ _ _ Hbody).
Qed.

(** X4. At status 400 a response that gives no validation error gives a
    Python error in its place: an empty body, a body that is not declared
    as JSON, and a JSON body that is not an object raise [TypeError]; a
    JSON object that lacks one of the fields raises [KeyError] for the
    first one missing in the order [message], [code], [type],
    [details]. *)
Theorem parse_error_bad_request_malformed (r : response) :
  status r = BAD_REQUEST ->
  (body r = "" -> parse_error r = Raise TypeError) /\
  (forall ct, body r <> "" -> content_type_of r = Some ct ->
     media_type ct <> "application/json" -> parse_error r = Raise TypeError) /\
  (forall v, json_body r v -> (forall o, v <> JObj o) ->
     parse_error r = Raise TypeError) /\
  (forall o k, json_body r (JObj o) ->
     List.find (fun k => negb (bool_decide (is_Some (o !! k))))
               ["message"; "code"; "type"; "details"] = Some k ->
     parse_error r = Raise (KeyError k)).
Proof.
  intros Hst.
  assert (Hnot : forall b, parse_body r = Return b ->
                 (forall o, b <> JObj o) -> parse_error r = Raise TypeError).
  { intros b Hbody Hb. unfold parse_error. rewrite Hbody, Hst. simpl.
    destruct b as [| | | | |o]; try reflexivity. by destruct (Hb o). }
  split; [|split; [|split]].
  - intros Hbody. apply (Hnot JNull); [|discriminate].
    rewrite parse_body_cases. by rewrite Hbody.
  - intros ct Hbody Hct Hmedia. apply (Hnot (JStr (body r))); [|discriminate].
    rewrite parse_body_cases. apply String.eqb_neq in Hbody, Hmedia.
    by rewrite Hbody, Hct, Hmedia.
  - intros v Hv Hobj. apply (Hnot v); [by apply parse_body_json|exact Hobj].
  - intros o k Hbody Hfind. unfold parse_error.
    rewrite (parse_body_json r _ Hbody), Hst. simpl. simpl in Hfind.
    destruct (o !! "message") as [m|]; simpl in *;
      [|by injection Hfind as <-].
    destruct (o !! "code") as [c|]; simpl in *;
      [|by injection Hfind as <-].
    destruct (o !! "type") as [t|]; simpl in *;
      [|by injection Hfind as <-].
    destruct (o !! "details") as [d|]; simpl in *;
      [discriminate|by injection Hfind as <-].
Qed.

(** X5. The validation error and success exclude each other: a response
    that counts as a success (a status from 200 to 299, or 409) is never
    turned into a validation error -- [parse_error] gives what
    [parse_body] gives -- and a response that raises the validation error
    is not a success. *)
Theorem parse_error_on_success (r : response) :
  (success r = true -> parse_error r = parse_body r) /\
  (forall code type message details,
     parse_error r =
       Raise (RackspaceMonitoringValidationError code type message details) ->
     success r = false).
Proof.
  assert (Hbad : status r = BAD_REQUEST -> success r = false).
  { intros Hst. unfold success. rewrite Hst. reflexivity. }
  split.
  - intros Hok. unfold parse_error.
    destruct (status r =? BAD_REQUEST) eqn:Hst.
    + apply Z.eqb_eq in Hst. rewrite (Hbad Hst) in Hok. discriminate.
    + by destruct (parse_body r).
  - intros code type message details Herr. apply Hbad.
    by eapply validation_error_status.
Qed.
End Decoder_errors.

(** ** The connection wrapper *)

Section Request_extras.
Context `{PyEnv} `{Service}.

(** X6. Every call of [request] makes exactly one exchange with the base
    connection, with the action, the method, the query parameters and the
    raw flag it was given, and with the header [Accept: application/json]
    whatever the caller passed for it. For POST and PUT the data is what
    [json.dumps] makes of it and the [Content-Type] header is the JSON
    one; for every other method the data and the other headers are the
    caller's. *)
Theorem request_headers_and_payload (action : string)
    (params : option (gmap string json)) (data : json)
    (headers : option (gmap string string)) (method : string) (raw : bool)
    (w : world) :
  exists (q : http_request) (a : reply),
    trace (request action params data headers method raw w).2
      = (trace w ++ [(q, a)])%list /\
    req_action q = action /\ req_method q = method /\ req_raw q = raw /\
    req_params q = default ∅ params /\
    req_headers q !! "Accept" = Some "application/json" /\
    (method = "POST" \/ method = "PUT" ->
       req_data q = JStr (json_dumps data) /\
       req_headers q !! "Content-Type"
         = Some "application/json; charset=UTF-8") /\
    (method <> "POST" -> method <> "PUT" ->
       req_data q = data /\
       forall k, k <> "Accept" ->
         req_headers q !! k = default ∅ headers !! k).
Proof.
  unfold request.
  destruct (bool_decide (method ∈ ["POST"; "PUT"])) eqn:Hm.
  - apply bool_decide_eq_true in Hm.
    match goal with
    | |- context [super_request ?q0 w] =>
        exists q0, (base_request q0 (server w)).1;
        rewrite (super_request_exchanged q0 w _ _ (surjective_pairing _))
    end.
    simpl. do 5 (split; [reflexivity|]).
    split; [rewrite lookup_insert_ne by done; apply lookup_insert_eq|].
    split.
    + intros _. split; [reflexivity|apply lookup_insert_eq].
    + intros Hpost Hput. exfalso.
      apply elem_of_cons in Hm as [->|Hm]; [done|].
      apply elem_of_cons in Hm as [->|Hm]; [done|]. by apply elem_of_nil in Hm.
  - apply bool_decide_eq_false in Hm.
    match goal with
    | |- context [super_request ?q0 w] =>
        exists q0, (base_request q0 (server w)).1;
        rewrite (super_request_exchanged q0 w _ _ (surjective_pairing _))
    end.
    simpl. do 5 (split; [reflexivity|]).
    split; [apply lookup_insert_eq|].
    split.
    + intros [->| ->]; destruct Hm; [by left|by right; left].
    + intros _ _. split; [reflexivity|].
      intros k Hk. by rewrite lookup_insert_ne.
Qed.
End Request_extras.

(** ** Pagination engine *)

Section Pagination_extras.
Context `{PyEnv} `{Service}.

(** X7. A page fetch answered with a status other than 200 and 204 never
    gives a page: it raises. A body that is not JSON raises [ValueError];
    a body that is a JSON object raises the unexpected-status error, whose
    message carries the status, the URL and the [details] field of the
    body (the empty string when the body has none). *)
Theorem get_more_unexpected_status {T} (last_key : json) (vd : value_dict T)
    (w : world) (resp : response) (s : svc) :
  base_request (page_request last_key vd) (server w) = (Responded resp, s) ->
  status resp <> OK -> status resp <> NO_CONTENT ->
  let result := (_get_more last_key vd w).1.1 in
  (exists e, result = Raise e) /\
  (json_loads (body resp) = None -> result = Raise ValueError) /\
  (forall o, json_loads (body resp) = Some (JObj o) ->
     result =
     Raise (LibcloudError
              ("Unexpected status code: " ++ pct_s (JNum (status resp))
               ++ " (url=" ++ pct_s (JStr (url (ctx vd)))
               ++ ", details=" ++ pct_s (default (JStr "") (o !! "details"))
               ++ ")"))).
Proof.
  intros Hq Hok Hnc result. subst result.
  rewrite get_more_result, Hq. simpl.
  apply Z.eqb_neq in Hok, Hnc. rewrite Hok, Hnc.
  unfold loads. split; [|split].
  - destruct (json_loads (body resp)) as [[| | |str|l|o]|]; simpl; eauto.
    + destruct (is_substring "details" str); simpl; eauto.
    + destruct (existsb _ l); simpl; eauto.
    + destruct (o !! "details"); simpl; eauto.
  - intros ->. reflexivity.
  - intros o ->. simpl. by destruct (o !! "details") as [d|] eqn:Hd.
Qed.



(** X10. A page answered with status 200 needs a JSON body with its
    keys: a body that is not JSON raises [ValueError]; with an item
    mapper, an object without [values] raises [KeyError] for [values];
    and when the items are mapped, an object without [metadata] raises
    [KeyError] for [metadata] instead of giving the page. *)
Theorem get_more_missing_keys {T} (last_key : json) (vd : value_dict T)
    (w : world) (resp : response) (s : svc) :
  base_request (page_request last_key vd) (server w) = (Responded resp, s) ->
  status resp = OK ->
  let result := (_get_more last_key vd w).1.1 in
  let vd' := (_get_more last_key vd w).1.2 in
  (json_loads (body resp) = None -> result = Raise ValueError) /\
  (forall o f, json_loads (body resp) = Some (JObj o) ->
     list_item_mapper vd = Some f -> o !! "values" = None ->
     result = Raise (KeyError "values")) /\
  (forall o f vs l, json_loads (body resp) = Some (JObj o) ->
     list_item_mapper vd = Some f -> o !! "values" = Some (JArr vs) ->
     omap (fun x => f x (ctx vd')) vs = Return l ->
     o !! "metadata" = None ->
     result = Raise (KeyError "metadata")).
Proof.
  intros Hq Hst result vd'. subst result.
  rewrite get_more_result, Hq. simpl. rewrite Hst. simpl. unfold loads.
  split; [|split].
  - intros ->. reflexivity.
  - intros o f -> -> Hv. simpl. by rewrite Hv.
  - intros o f vs l -> -> Hv Hmap Hmeta. simpl. rewrite Hv. simpl.
    fold vd'. rewrite Hmap. simpl. by rewrite Hmeta.
Qed.
End Pagination_extras.

(** ** Resource identity resolver *)

Section Resolver_extras.
Context `{PyEnv}.

Lemma kv_known_key (name singular : string) :
  kv !! name = Some singular ->
  to_underscore_separated (singular ++ "_id") ∈ id_keys.
Proof.
  intros Hkv. unfold kv in Hkv.
  apply elem_of_list_to_map_2 in Hkv.
  repeat (apply elem_of_cons in Hkv as [Hkv|Hkv];
          [injection Hkv as -> ->; vm_compute; set_solver|]).
  by apply elem_of_nil in Hkv.
Qed.

Lemma walk_chunks_keys (chunks : list string) (rv rv' : gmap string string) :
  (forall k, is_Some (rv !! k) -> k ∈ id_keys) ->
  walk_chunks chunks rv = Return rv' ->
  forall k, is_Some (rv' !! k) -> k ∈ id_keys.
Proof.
  remember (List.length chunks) as n eqn:Hn.
  assert (Hlen : (List.length chunks <= n)%nat) by lia. clear Hn.
  revert chunks rv Hlen. induction n as [|n IH]; intros chunks rv Hlen Hrv Hwalk.
  { destruct chunks; [|simpl in Hlen; lia].
    injection Hwalk as <-. exact Hrv. }
  destruct chunks as [|name [|v rest]]; simpl in Hwalk.
  - injection Hwalk as <-. exact Hrv.
  - unfold _plural_to_singular in Hwalk. destruct (kv !! name); discriminate.
  - unfold _plural_to_singular in Hwalk.
    destruct (kv !! name) as [singular|] eqn:Hkv; [|discriminate].
    simpl in Hwalk, Hlen. eapply (IH rest); [lia| |exact Hwalk].
    intros k Hk. destruct (decide (k = to_underscore_separated (singular ++ "_id")))
      as [->|Hne].
    + by eapply kv_known_key.
    + rewrite lookup_insert_ne in Hk by done. by apply Hrv.
Qed.

Lemma append_assoc (a b c : string) : (a ++ b) ++ c = a ++ (b ++ c).
Proof.
  induction a as [|x a IH]; [reflexivity|].
  by rewrite !append_cons, IH.
Qed.

Lemma location_of_app_shape (pairs : list (string * string)) (rest : string) :
  rest = "" \/ (exists r, rest = String "/" r) ->
  location_of pairs ++ rest = "" \/
  exists r, location_of pairs ++ rest = String "/" r.
Proof.
  intros Hrest. destruct pairs as [|[c i] pairs].
  - exact Hrest.
  - right. rewrite location_of_cons, append_cons. eauto.
Qed.

Lemma split_segment_shape (s rest : string) :
  segment s ->
  rest = "" \/ (exists r, rest = String "/" r) ->
  split "/" (s ++ rest) = s :: tail (split "/" rest).
Proof.
  intros Hs [->|[r ->]].
  - rewrite append_empty. by apply split_segment.
  - by rewrite split_segment_slash.
Qed.

(** The segments of a well-formed location path followed by [rest]. *)
Lemma tail_split_location_app (pairs : list (string * string)) (rest : string) :
  Forall (fun p => segment p.1 /\ segment p.2) pairs ->
  rest = "" \/ (exists r, rest = String "/" r) ->
  tail (split "/" (location_of pairs ++ rest))
  = ((pairs ≫= (fun p => [p.1; p.2])) ++ tail (split "/" rest))%list.
Proof.
  intros Hsegs Hrest. induction Hsegs as [|[c i] pairs [Hc Hi] _ IH];
    [reflexivity|].
  simpl in Hc, Hi. rewrite location_of_cons, append_cons.
  change (split "/" (String "/" ?x)) with ("" :: split "/" x). simpl tail.
  rewrite !append_assoc, append_cons, !append_assoc.
  rewrite split_segment_slash by exact Hc.
  rewrite split_segment_shape; [|exact Hi|by apply location_of_app_shape].
  by rewrite IH.
Qed.

Lemma walk_chunks_app (pairs : list (string * string)) (tl : list string)
    (rv : gmap string string) :
  walk_chunks ((pairs ≫= (fun p => [p.1; p.2])) ++ tl) rv
  = try! m := foldl record_pair (Return rv) pairs in walk_chunks tl m.
Proof.
  revert rv. induction pairs as [|[c i] pairs IH]; intros rv; [reflexivity|].
  simpl. unfold _plural_to_singular.
  destruct (kv !! c) as [s|]; simpl.
  - apply IH.
  - by rewrite foldl_record_pair_Raise.
Qed.

(** Resolution of a path that is the prefix, pairs, and a rest. *)
Lemma url_to_obj_ids_location (rp url rest : string)
    (pairs : list (string * string)) :
  Forall (fun p => segment p.1 /\ segment p.2) pairs ->
  rest = "" \/ (exists r, rest = String "/" r) ->
  urlparse_path url = rp ++ location_of pairs ++ rest ->
  _url_to_obj_ids rp url
  = try! m := resolve_pairs pairs in walk_chunks (tail (split "/" rest)) m.
Proof.
  intros Hsegs Hrest Hpath. unfold _url_to_obj_ids, chunks_of, resolve_pairs.
  rewrite Hpath. unfold startswith.
  rewrite prefix_append, drop_chars_append.
  rewrite tail_split_location_app by assumption. apply walk_chunks_app.
Qed.

(** A location made of pairs only resolves to what the pairs record. *)
Lemma url_to_obj_ids_exact (rp url : string) (pairs : list (string * string)) :
  Forall (fun p => segment p.1 /\ segment p.2) pairs ->
  urlparse_path url = rp ++ location_of pairs ->
  _url_to_obj_ids rp url = resolve_pairs pairs.
Proof.
  intros Hsegs Hpath.
  rewrite (url_to_obj_ids_location rp url "" pairs);
    [|exact Hsegs|by left|by rewrite Hpath, append_empty].
  by destruct (resolve_pairs pairs).
Qed.

(** X11. Whatever the location, the keys of a resolved mapping are among
    [entity_id], [alarm_id], [check_id], [notification_id] and
    [notification_plan_id], so the mapping holds five entries at most. *)
Theorem url_to_obj_ids_keys (rp url : string) (rv : gmap string string) :
  _url_to_obj_ids rp url = Return rv ->
  (forall k, is_Some (rv !! k) ->
     k ∈ ["entity_id"; "alarm_id"; "check_id"; "notification_id";
          "notification_plan_id"]) /\
  (size rv <= 5)%nat.
Proof.
  intros Hrv.
  assert (Hkeys : forall k, is_Some (rv !! k) -> k ∈ id_keys).
  { eapply walk_chunks_keys; [|exact Hrv].
    intros k [x Hx]. by rewrite lookup_empty in Hx. }
  split; [exact Hkeys|].
  assert (Hsub : dom rv ⊆ (list_to_set id_keys : gset string)).
  { intros k Hk. apply elem_of_dom in Hk. apply elem_of_list_to_set.
    by apply Hkeys. }
  apply subseteq_size in Hsub. rewrite size_dom in Hsub.
  etrans; [exact Hsub|]. vm_compute. lia.
Qed.

(** X12. A location that is just the prefix resolves to the empty
    mapping. A location whose last collection has no id after it -- the
    prefix, pairs that resolve, and one more known collection -- raises
    [IndexError]. *)
Theorem url_to_obj_ids_trailing_collection (rp url : string)
    (pairs : list (string * string)) (m : gmap string string)
    (name singular : string) :
  (urlparse_path url = rp -> _url_to_obj_ids rp url = Return ∅) /\
  (Forall (fun p => segment p.1 /\ segment p.2) pairs ->
   segment name ->
   resolve_pairs pairs = Return m ->
   kv !! name = Some singular ->
   urlparse_path url = rp ++ location_of pairs ++ String "/" name ->
   _url_to_obj_ids rp url = Raise IndexError).
Proof.
  split.
  - intros Hpath.
    rewrite (url_to_obj_ids_location rp url "" []); [reflexivity|constructor|by left|].
    by rewrite Hpath, append_empty.
  - intros Hsegs Hname Hpairs Hkv Hpath.
    rewrite (url_to_obj_ids_location rp url (String "/" name) pairs Hsegs);
      [|right; eauto|exact Hpath].
    rewrite Hpairs. simpl. rewrite split_segment by exact Hname. simpl.
    unfold _plural_to_singular. by rewrite Hkv.
Qed.

(** X13. When a location names a collection more than once, the last id
    is the one recorded: resolving a location with one more pair at its
    end gives the mapping of the pairs before it with the id of the last
    pair put under the key of its collection, in place of an id recorded
    there before. *)
Theorem url_to_obj_ids_last_wins (rp url : string)
    (pairs : list (string * string)) (name id singular : string)
    (m : gmap string string) :
  Forall (fun p => segment p.1 /\ segment p.2) pairs ->
  segment name -> segment id ->
  urlparse_path url = rp ++ location_of (pairs ++ [(name, id)]) ->
  resolve_pairs pairs = Return m ->
  kv !! name = Some singular ->
  _url_to_obj_ids rp url
    = Return (<[to_underscore_separated (singular ++ "_id") := id]> m).
Proof.
  intros Hsegs Hname Hid Hpath Hm Hkv.
  rewrite (url_to_obj_ids_location rp url "" (pairs ++ [(name, id)])).
  - unfold resolve_pairs in *. rewrite foldl_app, Hm. simpl.
    unfold _plural_to_singular. by rewrite Hkv.
  - apply Forall_app. split; [exact Hsegs|]. by repeat constructor.
  - by left.
  - by rewrite Hpath, append_empty.
Qed.
End Resolver_extras.
(** ** Check data, and create followed by get *)

Section Check_data_extras.
Context `{PyEnv}.

Lemma without_None_idem (data : gmap string json) :
  without_None (without_None data) = without_None data.
Proof.
  apply map_eq. intros k. rewrite !without_None_lookup.
  destruct (data !! k) as [v|]; [|reflexivity].
  destruct (is_None v) eqn:Hv; [reflexivity|by rewrite Hv].
Qed.

(** What [_check_kwarg_to_data] returns: its dictionary literal without
    the null-valued keys. *)
Lemma check_kwarg_to_data_eq (kwargs : gmap string json) :
  _check_kwarg_to_data kwargs = Return (without_None (check_fields kwargs)).
Proof. unfold _check_kwarg_to_data. by rewrite strip_None_keys. Qed.

(** The entries of the dictionary literal, key by key. *)
Lemma check_fields_lookup (kwargs : gmap string json) :
  check_fields kwargs !! "who" = Some (default JNull (kwargs !! "who")) /\
  check_fields kwargs !! "why" = Some (default JNull (kwargs !! "why")) /\
  check_fields kwargs !! "label" = Some (default JNull (kwargs !! "label")) /\
  check_fields kwargs !! "timeout"
    = Some (default (JNum 29) (kwargs !! "timeout")) /\
  check_fields kwargs !! "period"
    = Some (default (JNum 30) (kwargs !! "period")) /\
  check_fields kwargs !! "monitoring_zones_poll"
    = Some (default (JArr []) (kwargs !! "monitoring_zones")) /\
  check_fields kwargs !! "target_alias"
    = Some (default JNull (kwargs !! "target_alias")) /\
  check_fields kwargs !! "target_resolver"
    = Some (default JNull (kwargs !! "target_resolver")) /\
  check_fields kwargs !! "type" = Some (default JNull (kwargs !! "type")) /\
  check_fields kwargs !! "details"
    = Some (default JNull (kwargs !! "details")) /\
  check_fields kwargs !! "monitoring_zones" = None.
Proof.
  unfold check_fields.
  generalize (default JNull (kwargs !! "who")),
             (default JNull (kwargs !! "why")),
             (default JNull (kwargs !! "label")),
             (default (JNum 29) (kwargs !! "timeout")),
             (default (JNum 30) (kwargs !! "period")),
             (default (JArr []) (kwargs !! "monitoring_zones")),
             (default JNull (kwargs !! "target_alias")),
             (default JNull (kwargs !! "target_resolver")),
             (default JNull (kwargs !! "type")),
             (default JNull (kwargs !! "details")).
  intros v1 v2 v3 v4 v5 v6 v7 v8 v9 v10.
  vm_compute. by repeat split.
Qed.

(** X14. [_check_kwarg_to_data] always returns, and what it returns holds
    no null value and no key outside the ten wire fields of a check, so a
    keyword it does not know is never sent. *)
Theorem check_kwarg_to_data_clean (kwargs : gmap string json) :
  exists data,
    _check_kwarg_to_data kwargs = Return data /\
    forall k v, data !! k = Some v ->
      is_None v = false /\
      k ∈ ["who"; "why"; "label"; "timeout"; "period";
           "monitoring_zones_poll"; "target_alias"; "target_resolver";
           "type"; "details"].
Proof.
  eexists. split; [apply check_kwarg_to_data_eq|].
  intros k v Hk. rewrite without_None_lookup in Hk.
  destruct (check_fields kwargs !! k) as [x|] eqn:Hx; [|discriminate].
  destruct (is_None x) eqn:Hnone; [discriminate|]. injection Hk as <-.
  split; [exact Hnone|].
  unfold check_fields in Hx. apply elem_of_list_to_map_2 in Hx.
  apply (list_elem_of_fmap_2 fst) in Hx. exact Hx.
Qed.

(** X15. The defaults of [_check_kwarg_to_data]: an absent [timeout] is
    sent as 29, an absent [period] as 30, absent [monitoring_zones] as an
    empty list under the wire name [monitoring_zones_poll] (the name
    [monitoring_zones] itself is never sent); a keyword given as [None]
    is left out, the default is not put in its place; every other field
    is sent exactly when its keyword is given and not [None]. *)
Theorem check_kwarg_to_data_defaults (kwargs : gmap string json) :
  let sent (given : option json) (dflt : json) : option json :=
    if is_None (default dflt given) then None else Some (default dflt given) in
  exists data,
    _check_kwarg_to_data kwargs = Return data /\
    data !! "timeout" = sent (kwargs !! "timeout") (JNum 29) /\
    data !! "period" = sent (kwargs !! "period") (JNum 30) /\
    data !! "monitoring_zones_poll"
      = sent (kwargs !! "monitoring_zones") (JArr []) /\
    data !! "monitoring_zones" = None /\
    forall k, k ∈ ["who"; "why"; "label"; "target_alias"; "target_resolver";
                   "type"; "details"] ->
      data !! k = sent (kwargs !! k) JNull.
Proof.
  intros sent. eexists. split; [apply check_kwarg_to_data_eq|].
  destruct (check_fields_lookup kwargs)
    as (Hwho & Hwhy & Hlabel & Htimeout & Hperiod & Hzones & Halias
        & Hresolver & Htype & Hdetails & Hnone).
  split; [by rewrite without_None_lookup, Htimeout|].
  split; [by rewrite without_None_lookup, Hperiod|].
  split; [by rewrite without_None_lookup, Hzones|].
  split; [by rewrite without_None_lookup, Hnone|].
  intros k Hk. rewrite without_None_lookup.
  apply elem_of_cons in Hk as [->|Hk]; [by rewrite Hwho|].
  apply elem_of_cons in Hk as [->|Hk]; [by rewrite Hwhy|].
  apply elem_of_cons in Hk as [->|Hk]; [by rewrite Hlabel|].
  apply elem_of_cons in Hk as [->|Hk]; [by rewrite Halias|].
  apply elem_of_cons in Hk as [->|Hk]; [by rewrite Hresolver|].
  apply elem_of_cons in Hk as [->|Hk]; [by rewrite Htype|].
  apply elem_of_cons in Hk as [->|Hk]; [by rewrite Hdetails|].
  by apply elem_of_nil in Hk.
Qed.
End Check_data_extras.

Section Create_get_extras.
Context `{PyEnv} `{Service} `{BaseResponse}.
Variable request_path : string.

Lemma resolve_pairs_check (E C : string) :
  resolve_pairs [("entities", E); ("checks", C)]
  = Return (<["check_id" := C]> (<["entity_id" := E]> ∅)).
Proof. vm_compute. reflexivity. Qed.

Lemma resolve_pairs_plan (P : string) :
  resolve_pairs [("notification_plans", P)]
  = Return (<["notification_plan_id" := P]> ∅).
Proof. vm_compute. reflexivity. Qed.

Lemma get_check_kwargs_ids (E C : string) :
  get_check_kwargs (<["check_id" := C]> (<["entity_id" := E]> ∅))
  = get_check (JStr E) (JStr C).
Proof.
  unfold get_check_kwargs.
  rewrite lookup_insert_ne by done. rewrite !lookup_insert_eq.
  rewrite map_size_insert_None
    by (rewrite lookup_insert_ne by done; apply lookup_empty).
  rewrite map_size_insert_None by apply lookup_empty.
  by rewrite map_size_empty.
Qed.

Lemma get_notification_plan_kwargs_ids (P : string) :
  get_notification_plan_kwargs (<["notification_plan_id" := P]> ∅)
  = get_notification_plan (JStr P).
Proof.
  unfold get_notification_plan_kwargs.
  rewrite lookup_insert_eq.
  rewrite map_size_insert_None by apply lookup_empty.
  by rewrite map_size_empty.
Qed.

(** X16. Create followed by get. The POST of [create_check] goes to
    [/entities/<entity id>/checks] with the check fields as its payload.
    When it is answered with status 201 and a location whose path is the
    request path followed by [/entities/E/checks/C], [create_check] goes
    on as [get_check] of [E] and [C]: the check it returns is the one the
    service holds at the location, not one built from the keywords. *)
Theorem create_check_then_get (entity : Entity.t) (kwargs : gmap string json)
    (w : world) (resp : response) (s : svc) (location E C : string) :
  let q := write_request "POST"
             ("/entities/" ++ pct_s (Entity.id entity) ++ "/checks")
             (check_fields kwargs) in
  base_request q (server w) = (Responded resp, s) ->
  status resp = CREATED ->
  headers resp !! "location" = Some location -> location <> "" ->
  urlparse_path location
    = request_path ++ location_of [("entities", E); ("checks", C)] ->
  segment E -> segment C ->
  create_check request_path entity kwargs w
  = get_check (JStr E) (JStr C) (exchanged w q (Responded resp) s).
Proof.
  intros q Hq Hst Hloc Hne Hpath HE HC.
  unfold create_check. rewrite check_kwarg_to_data_eq, create_unified.
  assert (Hq' : base_request
                  (write_request "POST"
                     ("/entities/" ++ pct_s (Entity.id entity) ++ "/checks")
                     (without_None (check_fields kwargs))) (server w)
                = (Responded resp, s)).
  { unfold write_request. rewrite without_None_idem. exact Hq. }
  destruct (create_or_update_cases request_path "POST" CREATED
              ("/entities/" ++ pct_s (Entity.id entity) ++ "/checks")
              (without_None (check_fields kwargs)) get_check_kwargs w
              (Responded resp) s (or_introl eq_refl) Hq')
    as (_ & _ & Hlocated & _).
  rewrite (Hlocated resp location eq_refl Hst Hloc Hne).
  rewrite (url_to_obj_ids_exact request_path location
             [("entities", E); ("checks", C)]);
    [|by repeat constructor|exact Hpath].
  rewrite resolve_pairs_check.
  unfold write_request. rewrite without_None_idem.
  unfold bind, lift. rewrite get_check_kwargs_ids.
  subst q. unfold write_request. symmetry. apply surjective_pairing.
Qed.

(** X17. Create followed by get for a notification plan: the collection
    [notification_plans] of the location is recorded under
    [notification_plan_id], which is the keyword [get_notification_plan]
    takes, so a POST answered with status 201 and the location
    [/notification_plans/P] goes on as [get_notification_plan] of [P]. *)
Theorem create_notification_plan_then_get (kwargs : gmap string json)
    (w : world) (resp : response) (s : svc) (location P : string) :
  let q := write_request "POST" "/notification_plans" (plan_fields kwargs) in
  base_request q (server w) = (Responded resp, s) ->
  status resp = CREATED ->
  headers resp !! "location" = Some location -> location <> "" ->
  urlparse_path location
    = request_path ++ location_of [("notification_plans", P)] ->
  segment P ->
  create_notification_plan request_path kwargs w
  = get_notification_plan (JStr P) (exchanged w q (Responded resp) s).
Proof.
  intros q Hq Hst Hloc Hne Hpath HP.
  unfold create_notification_plan. rewrite create_unified.
  destruct (create_or_update_cases request_path "POST" CREATED
              "/notification_plans" (plan_fields kwargs)
              get_notification_plan_kwargs w
              (Responded resp) s (or_introl eq_refl) Hq)
    as (_ & _ & Hlocated & _).
  rewrite (Hlocated resp location eq_refl Hst Hloc Hne).
  rewrite (url_to_obj_ids_exact request_path location
             [("notification_plans", P)]);
    [|by repeat constructor|exact Hpath].
  rewrite resolve_pairs_plan.
  unfold bind, lift. rewrite get_notification_plan_kwargs_ids.
  subst q. symmetry. apply surjective_pairing.
Qed.
End Create_get_extras.

(** ** Mappers *)

Section Mapper_extras.
Context `{PyEnv}.

Lemma omap_Forall {A B} (f : A -> outcome B) (P : B -> Prop) (l : list A)
    (ys : list B) :
  (forall x y, f x = Return y -> P y) ->
  omap f l = Return ys -> Forall P ys.
Proof.
  intros Hf. revert ys. induction l as [|x l IH]; intros ys Hys; simpl in Hys.
  - injection Hys as <-. constructor.
  - destruct (f x) as [y| |] eqn:Hx; try discriminate. simpl in Hys.
    destruct (omap f l) as [ys'| |]; try discriminate. simpl in Hys.
    injection Hys as <-. constructor; [by eapply Hf|by apply IH].
Qed.

(** Reading every key of a dictionary back gives its items. *)
Lemma omap_items (a : gmap string json) (l : list (string * json)) :
  (forall k v, (k, v) ∈ l -> a !! k = Some v) ->
  omap (fun key => try! v := getitem (JObj a) key in Return (key, v)) l.*1
  = Return l.
Proof.
  induction l as [|[k v] l IH]; intros Hl; [reflexivity|].
  rewrite fmap_cons. cbn [omap fst]. rewrite IH.
  - unfold getitem. by rewrite (Hl k v) by left.
  - intros k' v' Hin. apply Hl. by right.
Qed.

Lemma to_check_entity_id (obj : json) (vd : fetch_ctx) (c : Check.t) :
  _to_check obj vd = Return c -> Some (Check.entity_id c) = entity_id vd.
Proof.
  unfold _to_check. intros Hc.
  repeat match type of Hc with
  | (try! _ := ?m in _) = _ =>
      destruct m as [?| |] eqn:?; simpl in Hc; try discriminate
  end.
  injection Hc as <-. simpl. unfold ctx_entity_id in *.
  destruct (entity_id vd); [congruence|discriminate].
Qed.

Lemma to_alarm_entity_id (obj : json) (vd : fetch_ctx) (a : Alarm.t) :
  _to_alarm obj vd = Return a -> Some (Alarm.entity_id a) = entity_id vd.
Proof.
  unfold _to_alarm. intros Ha.
  repeat match type of Ha with
  | (try! _ := ?m in _) = _ =>
      destruct m as [?| |] eqn:?; simpl in Ha; try discriminate
  end.
  injection Ha as <-. simpl. unfold ctx_entity_id in *.
  destruct (entity_id vd); [congruence|discriminate].
Qed.

(** X18. The addresses of an entity. For an entity object with [id],
    [label] and [metadata], [_to_entity] returns the entity with these
    three and with the items of [ip_addresses] as its addresses; an
    [ip_addresses] that is absent or null gives no addresses and no
    error; one that is neither null nor an object raises
    [AttributeError]. The second argument is not looked at. *)
Theorem to_entity_addresses (o : gmap string json) (vd : fetch_ctx)
    (id label metadata : json) :
  o !! "id" = Some id -> o !! "label" = Some label ->
  o !! "metadata" = Some metadata ->
  let made ips := Return {| Entity.id := id; Entity.label := label;
                            Entity.extra := metadata;
                            Entity.ip_addresses := ips |} in
  (o !! "ip_addresses" = None -> _to_entity (JObj o) vd = made []) /\
  (o !! "ip_addresses" = Some JNull -> _to_entity (JObj o) vd = made []) /\
  (forall a, o !! "ip_addresses" = Some (JObj a) ->
     _to_entity (JObj o) vd = made (map_to_list a)) /\
  (forall v, o !! "ip_addresses" = Some v -> is_None v = false ->
     (forall a, v <> JObj a) -> _to_entity (JObj o) vd = Raise AttributeError).
Proof.
  intros Hid Hlabel Hmeta made.
  split; [|split; [|split]].
  - intros Hip. unfold _to_entity, get_default.
    rewrite Hip. cbn [default from_option Datatypes.id obind is_None keys_of]. unfold keys.
    rewrite (omap_items ∅ (map_to_list ∅)).
    + rewrite map_to_list_empty. unfold getitem.
      by rewrite Hid, Hlabel, Hmeta.
    + intros k v Hin. by apply elem_of_map_to_list.
  - intros Hip. unfold _to_entity, get_default, getitem.
    by rewrite Hip, Hid, Hlabel, Hmeta.
  - intros a Hip. unfold _to_entity, get_default.
    rewrite Hip. cbn [default from_option Datatypes.id obind is_None keys_of]. unfold keys.
    rewrite omap_items.
    + unfold getitem. by rewrite Hid, Hlabel, Hmeta.
    + intros k v Hin. by apply elem_of_map_to_list.
  - intros v Hip Hnone Hobj. unfold _to_entity, get_default.
    rewrite Hip. simpl. rewrite Hnone.
    destruct v as [| | | | |a]; try reflexivity; try discriminate.
    by destruct (Hobj a).
Qed.

(** X19. The fields of a check. [_to_check] needs every field of the
    check object but [label]: the first of [id], [timeout], [period],
    [monitoring_zones_poll], [target_alias], [target_resolver], [type],
    [details] that the object lacks raises its [KeyError], and then a
    second argument without [entity_id] raises the [KeyError] for
    [entity_id]. Otherwise the check is returned: its entity id is the one
    of the second argument, an absent label is null, and the wire field
    [monitoring_zones_poll] is the attribute [monitoring_zones]. *)
Theorem to_check_required_fields (o : gmap string json) (vd : fetch_ctx) :
  match List.find (fun k => negb (bool_decide (is_Some (o !! k))))
          ["id"; "timeout"; "period"; "monitoring_zones_poll";
           "target_alias"; "target_resolver"; "type"; "details"] with
  | Some k => _to_check (JObj o) vd = Raise (KeyError k)
  | None =>
      match entity_id vd with
      | None => _to_check (JObj o) vd = Raise (KeyError "entity_id")
      | Some e =>
          exists c, _to_check (JObj o) vd = Return c /\
            Check.entity_id c = e /\
            Check.label c = default JNull (o !! "label") /\
            o !! "id" = Some (Check.id c) /\
            o !! "monitoring_zones_poll" = Some (Check.monitoring_zones c) /\
            o !! "type" = Some (Check.type c) /\
            o !! "details" = Some (Check.details c)
      end
  end.
Proof.
  unfold _to_check, getitem, get. simpl.
  destruct (o !! "id") as [v1|]; simpl; [|reflexivity].
  destruct (o !! "timeout") as [v2|]; simpl; [|reflexivity].
  destruct (o !! "period") as [v3|]; simpl; [|reflexivity].
  destruct (o !! "monitoring_zones_poll") as [v4|]; simpl; [|reflexivity].
  destruct (o !! "target_alias") as [v5|]; simpl; [|reflexivity].
  destruct (o !! "target_resolver") as [v6|]; simpl; [|reflexivity].
  destruct (o !! "type") as [v7|]; simpl; [|reflexivity].
  destruct (o !! "details") as [v8|]; simpl; [|reflexivity].
  unfold ctx_entity_id. destruct (entity_id vd) as [e|]; simpl; [|reflexivity].
  eexists. split; [reflexivity|]. simpl. by repeat split.
Qed.

(** X20. The children of an overview belong to its entity. Whenever
    [_to_overview_obj] returns an overview, every check and every alarm
    in it carries the id of the overview's entity as its entity id,
    whatever the second argument holds and whatever the check and alarm
    objects say. *)
Theorem to_overview_obj_children (data : json) (vd : fetch_ctx)
    (ov : Overview.t) :
  _to_overview_obj data vd = Return ov ->
  Forall (fun c => Check.entity_id c = Entity.id (Overview.entity ov))
         (Overview.checks ov) /\
  Forall (fun a => Alarm.entity_id a = Entity.id (Overview.entity ov))
         (Overview.alarms ov).
Proof.
  unfold _to_overview_obj. intros Hov.
  destruct (getitem data "entity") as [eo| |]; try discriminate. simpl in Hov.
  destruct (_to_entity eo (entity_ctx None)) as [en| |]; try discriminate.
  simpl in Hov.
  destruct (getitem data "checks") as [co| |]; try discriminate. simpl in Hov.
  destruct (iter co) as [ci| |]; try discriminate. simpl in Hov.
  destruct (omap _ ci) as [cs| |] eqn:Hcs; try discriminate. simpl in Hov.
  destruct (getitem data "alarms") as [ao| |]; try discriminate. simpl in Hov.
  destruct (iter ao) as [ai| |]; try discriminate. simpl in Hov.
  destruct (omap _ ai) as [als| |] eqn:Hals; try discriminate. simpl in Hov.
  destruct (getitem data "latest_alarm_states") as [so| |]; try discriminate.
  simpl in Hov.
  destruct (iter so) as [si| |]; try discriminate. simpl in Hov.
  destruct (omap _ si) as [ss| |]; try discriminate. simpl in Hov.
  injection Hov as <-. simpl. split.
  - eapply omap_Forall; [|exact Hcs]. intros x c Hc.
    apply to_check_entity_id in Hc. simpl in Hc. congruence.
  - eapply omap_Forall; [|exact Hals]. intros x a Ha.
    apply to_alarm_entity_id in Ha. simpl in Ha. congruence.
Qed.
End Mapper_extras.

(** ** The entity delete: what is raised and what is returned *)

Section Delete_extras.
Context `{PyEnv} `{Service}.

(** X21. A validation failure of the entity DELETE is raised again, after
    that one request and with nothing deleted, when child deletion was not
    asked for (whatever the error type) and when the error type is not
    [childrenExistError] (whatever was asked for), provided that the
    details of the failure are an object with a [type]. *)
Theorem delete_entity_reraises (fuel : nat) (entity : Entity.t)
    (ex_delete_children : bool) (w : world) (code type message t : json)
    (d : gmap string json) (s1 : svc) :
  let e := RackspaceMonitoringValidationError code type message (JObj d) in
  base_request (delete_request (entity_url entity)) (server w) = (Raised e, s1) ->
  d !! "type" = Some t ->
  ex_delete_children = false \/ eq_str type "childrenExistError" = false ->
  delete_entity (S fuel) entity ex_delete_children w =
    (Raise e, exchanged w (delete_request (entity_url entity)) (Raised e) s1).
Proof.
  intros e Hq Ht Hcond. rewrite delete_entity_unfold, request_DELETE.
  rewrite (super_request_exchanged _ w _ _ Hq). subst e.
  unfold delete_children, bind, lift, getitem. rewrite Ht.
  destruct Hcond as [-> | ->]; [reflexivity|].
  by rewrite orb_true_r.
Qed.

(** X22. The handler of [delete_entity] reads [details.type] before it
    looks at anything else, so a validation failure whose details hold no
    [type] is not raised again: a [KeyError] for [type] is raised in its
    place, or a [TypeError] when the details are not an object. This is
    so whether or not child deletion was asked for and whatever the error
    type; no further request is sent. *)
Theorem delete_entity_details_without_type (fuel : nat) (entity : Entity.t)
    (ex_delete_children : bool) (w : world) (code type message details : json)
    (s1 : svc) :
  let e := RackspaceMonitoringValidationError code type message details in
  let w1 := exchanged w (delete_request (entity_url entity)) (Raised e) s1 in
  base_request (delete_request (entity_url entity)) (server w) = (Raised e, s1) ->
  (forall d, details = JObj d -> d !! "type" = None ->
     delete_entity (S fuel) entity ex_delete_children w
     = (Raise (KeyError "type"), w1)) /\
  ((forall d, details <> JObj d) ->
     delete_entity (S fuel) entity ex_delete_children w = (Raise TypeError, w1)).
Proof.
  intros e w1 Hq.
  assert (Hrun : delete_entity (S fuel) entity ex_delete_children w =
                 bind (delete_children fuel entity ex_delete_children e type details)
                      (fun _ => delete_entity fuel entity true) w1).
  { rewrite delete_entity_unfold, request_DELETE.
    by rewrite (super_request_exchanged _ w _ _ Hq). }
  split.
  - intros d -> Hd. rewrite Hrun.
    unfold delete_children, bind, lift, getitem. by rewrite Hd.
  - intros Hd. rewrite Hrun. unfold delete_children, bind, lift, getitem.
    destruct details as [| | | | |d]; try reflexivity. by destruct (Hd d).
Qed.

(** X23. When the entity DELETE is answered with a response,
    [delete_entity] returns whether its status is 204 and raises nothing
    for any other status; an exception of the transport that is not a
    validation failure is passed on. Either way one request is sent. *)
Theorem delete_entity_answered (fuel : nat) (entity : Entity.t)
    (ex_delete_children : bool) (w : world) (a : reply) (s1 : svc) :
  base_request (delete_request (entity_url entity)) (server w) = (a, s1) ->
  let w1 := exchanged w (delete_request (entity_url entity)) a s1 in
  (forall resp, a = Responded resp ->
     delete_entity (S fuel) entity ex_delete_children w
     = (Return (status resp =? NO_CONTENT), w1)) /\
  (forall e, a = Raised e ->
     (forall code type message details,
        e <> RackspaceMonitoringValidationError code type message details) ->
     delete_entity (S fuel) entity ex_delete_children w = (Raise e, w1)).
Proof.
  intros Hq w1. split.
  - intros resp ->. rewrite delete_entity_unfold, request_DELETE.
    by rewrite (super_request_exchanged _ w _ _ Hq).
  - intros e -> He. rewrite delete_entity_unfold, request_DELETE.
    rewrite (super_request_exchanged _ w _ _ Hq).
    destruct e as [| | | | | | |code type message details|]; try reflexivity.
    by destruct (He code type message details).
Qed.
End Delete_extras.
(** * Runs on the test double *)

#[local] Existing Instance Mock.env.
#[local] Existing Instance Mock.service.

Lemma get_more_marker_witness :
  req_params (page_request JNull Mock.audits) = {["limit" := JNum 200]} /\
  req_params (page_request JNull Mock.audits) !! "marker" = None /\
  req_params (page_request (JStr "abc")
                (_get_more JNull Mock.audits Mock.world0).1.2) !! "marker"
  = Some (JStr "abc").
Proof.
  assert (Hrun : _get_more JNull Mock.audits Mock.world0 =
    (Return ([JStr "a1"; JStr "a2"], JStr "abc", false),
     (_get_more JNull Mock.audits Mock.world0).1.2,
     (_get_more JNull Mock.audits Mock.world0).2))
    by (vm_compute; reflexivity).
  destruct (get_more_marker JNull Mock.audits Mock.world0)
    as [(_ & _ & _ & _ & _ & Hnone) Hnext].
  destruct (Hnone eq_refl eq_refl ltac:(vm_compute; reflexivity)) as [Hp Hm].
  split; [exact Hp|]. split; [exact Hm|].
  exact (proj2 (proj2 (Hnext _ _ _ _ _ Hrun eq_refl))).
Defined.

(** C3 as the spec states it does not hold. The audits are listed with
    [limit = 200]; the first page gives the next marker [abc] and the
    fetch with that marker gets no content. The third fetch is made
    without a cursor, for a descriptor without a start cursor, and it
    sends [marker = abc] again. And a listing with the start cursor [m0]
    against a service without content sends [m0] on its second fetch as
    on its first. *)
Lemma get_more_resends_marker :
  let run1 := _get_more JNull Mock.audits Quiet.world0 in
  let run2 := _get_more (JStr "abc") run1.1.2 run1.2 in
  let run3 := _get_more JNull run2.1.2 run2.2 in
  run1.1.1 = Return ([JStr "a1"; JStr "a2"], JStr "abc", false) /\
  run2.1.1 = Return ([], JNull, false) /\
  start_marker (ctx run2.1.2) = JNull /\
  Quiet.markers run3.2 = [None; Some (JStr "abc"); Some (JStr "abc")] /\
  let again1 := _get_more JNull Quiet.from_m0 Quiet.world0 in
  let again2 := _get_more JNull again1.1.2 again1.2 in
  again1.1.1 = Return ([], JNull, false) /\
  Quiet.markers again2.2 = [Some (JStr "m0"); Some (JStr "m0")].
Proof. repeat split; vm_compute; reflexivity. Qed.

Lemma get_more_page_witness :
  (_get_more JNull Mock.audits Mock.world0).1.1 =
  Return ([JStr "a1"; JStr "a2"], JStr "abc", false).
Proof.
  destruct (get_more_page JNull Mock.audits Mock.world0
    {| status := OK; headers := Mock.json_headers; body := "page1" |}
    (server Mock.world0)
    (list_to_map
       [("values", JArr [JStr "a1"; JStr "a2"]);
        ("metadata", JObj {["next_marker" := JStr "abc"]})])
    {["next_marker" := JStr "abc"]}
    [JStr "a1"; JStr "a2"]
    ltac:(vm_compute; reflexivity) ltac:(reflexivity)
    ltac:(vm_compute; reflexivity) ltac:(vm_compute; reflexivity)
    ltac:(vm_compute; reflexivity)) as [Hitem _].
  rewrite (Hitem _ eq_refl). vm_compute. reflexivity.
Defined.

Lemma url_to_obj_ids_pairs_witness :
  _url_to_obj_ids "/v1.0/12345" "/v1.0/12345/notification_plans/npA/checks/chB"
  = Return (<["check_id" := "chB"]> {["notification_plan_id" := "npA"]}).
Proof.
  rewrite (proj1 url_to_obj_ids_pairs "/v1.0/12345"
             "/v1.0/12345/notification_plans/npA/checks/chB"
             [("notification_plans", "npA"); ("checks", "chB")]).
  - vm_compute. reflexivity.
  - repeat constructor.
  - left. reflexivity.
Defined.

Lemma url_to_obj_ids_unknown_collection_witness :
  exists (j : nat) (c' : string),
    (j <= 1)%nat /\
    chunks_of "/v1.0/12345" "/v1.0/12345/entities/enA/agents/agB" !! (2 * j)%nat
      = Some c' /\
    kv !! c' = None /\
    _url_to_obj_ids "/v1.0/12345" "/v1.0/12345/entities/enA/agents/agB"
      = Raise (KeyError c').
Proof.
  apply (url_to_obj_ids_unknown_collection "/v1.0/12345"
           "/v1.0/12345/entities/enA/agents/agB" 1 "agents").
  - vm_compute. reflexivity.
  - vm_compute. intros Hin. repeat (inversion Hin as [|? ? ? Hin']; subst; clear Hin; rename Hin' into Hin).
Defined.

Lemma create_behaviour_witness :
  (_create "/v1.0/12345" "/entities/enABC/checks"
     (<["label" := JStr "x"]> {["who" := JNull]}) Mock.coerce Mock.world0).1
  = (Return (<["check_id" := "chDEF"]> {["entity_id" := "enABC"]}),
     {["label" := JStr "x"]}).
Proof.
  pose proof (create_behaviour "/v1.0/12345" "/entities/enABC/checks"
    (<["label" := JStr "x"]> {["who" := JNull]}) Mock.coerce Mock.world0
    (Responded (Mock.located CREATED)) (server Mock.world0)
    ltac:(reflexivity)) as (_ & _ & _ & Hlocated & _).
  rewrite (Hlocated (Mock.located CREATED)
             "/v1.0/12345/entities/enABC/checks/chDEF"
             eq_refl eq_refl ltac:(vm_compute; reflexivity) ltac:(discriminate)).
  vm_compute. reflexivity.
Defined.

Lemma parse_error_validation_witness :
  parse_error {| status := 400; headers := Mock.json_headers; body := "invalid" |}
  = Raise (RackspaceMonitoringValidationError
             (JNum 400) (JStr "invalidJson") (JStr "bad input") (JObj ∅)).
Proof.
  apply (proj2 (proj2 (parse_error_validation
           {| status := 400; headers := Mock.json_headers; body := "invalid" |}))).
  - reflexivity.
  - split; [discriminate|]. split; vm_compute; reflexivity.
Defined.

(** C8 as the spec states it does not hold. At status 400 a body without
    a content type raises the missing-content-type error, and an empty
    body or a body declared as plain text raises [TypeError]: none of
    them raises the validation error. *)
Lemma parse_error_bad_request_other_errors :
  parse_error {| status := 400; headers := ∅; body := "invalid" |}
    = Raise (LibcloudError "Missing content-type header") /\
  parse_error {| status := 400; headers := Mock.json_headers; body := "" |}
    = Raise TypeError /\
  parse_error {| status := 400; headers := {["content-type" := "text/plain"]};
                 body := "invalid" |}
    = Raise TypeError.
Proof. repeat split; vm_compute; reflexivity. Qed.

(** C5 as the spec states it does not hold. The entity has two checks
    and one alarm and the service reports the checks first: before its
    first retry the driver deletes the two checks and no alarm, and it
    sends the entity DELETE three times in all. *)
Lemma delete_entity_checks_only_then_retry :
  (base_request (delete_request "/entities/enA") (server Mock.world0)).1
    = Mock.children_exist "Check" /\
  (delete_entity 3 Mock.enA true Mock.world0).1 = Return true /\
  Mock.calls (delete_entity 3 Mock.enA true Mock.world0).2 =
    [("DELETE", "/entities/enA");
     ("GET", "/entities/enA/checks");
     ("DELETE", "/entities/enA/checks/chA");
     ("DELETE", "/entities/enA/checks/chB");
     ("DELETE", "/entities/enA");
     ("GET", "/entities/enA/alarms");
     ("DELETE", "/entities/enA/alarms/alA");
     ("DELETE", "/entities/enA")] /\
  List.length
    (List.filter (fun c => String.eqb c.1 "DELETE" && String.eqb c.2 "/entities/enA")
       (Mock.calls (delete_entity 3 Mock.enA true Mock.world0).2)) = 3%nat.
Proof. repeat split; vm_compute; reflexivity. Qed.

Lemma delete_entity_cascade_witness :
  let vd := _value_dict (list_checks Mock.enA JNull) in
  let first := (delete_request "/entities/enA", Mock.children_exist "Check") in
  let tr :=
    [(page_request JNull vd, Responded Fixture.checks_page);
     (delete_request (check_url (Fixture.check "chA")),
      Responded Fixture.no_content);
     (delete_request (check_url (Fixture.check "chB")),
      Responded Fixture.no_content)] in
  delete_entity 3 Mock.enA true Mock.world0 =
    delete_entity 2 Mock.enA true
      {| trace := first :: tr;
         server := {| Mock.checks := []; Mock.alarms := ["alA"] |} |} /\
  (forall c, c ∈ [Fixture.check "chA"; Fixture.check "chB"] ->
     answered (delete_request (check_url c)) tr).
Proof.
  intros vd first tr.
  assert (Hq : base_request (delete_request (entity_url Mock.enA))
                 (server Mock.world0) =
               (Mock.children_exist "Check", server Mock.world0))
    by (vm_compute; reflexivity).
  assert (Htype : getitem (JObj {["type" := JStr "Check"]}) "type"
                  = Return (JStr "Check"))
    by (vm_compute; reflexivity).
  assert (Hlisted :
    listed vd (fun c => delete_request (check_url c)) JNull (server Mock.world0)
      1 [Fixture.check "chA"; Fixture.check "chB"] tr
      {| Mock.checks := []; Mock.alarms := ["alA"] |}).
  { apply (listed_last vd _ JNull (server Mock.world0) Fixture.checks_page
             (server Mock.world0) _ JNull).
    - vm_compute. reflexivity.
    - split; [reflexivity|].
      exists _to_check,
        (list_to_map
           [("values", JArr (Mock.check_obj <$> ["chA"; "chB"]));
            ("metadata", JObj {["next_marker" := JNull]})]),
        (Mock.check_obj <$> ["chA"; "chB"]),
        {["next_marker" := JNull]}.
      repeat split; vm_compute; reflexivity.
    - reflexivity.
    - apply (deleted_cons (H0 := Mock.service)
               (fun c => delete_request (check_url c)) (Fixture.check "chA") _ _ Fixture.no_content
               {| Mock.checks := ["chB"]; Mock.alarms := ["alA"] |});
        [vm_compute; reflexivity|].
      apply (deleted_cons (H0 := Mock.service)
               (fun c => delete_request (check_url c)) (Fixture.check "chB") _ _ Fixture.no_content
               {| Mock.checks := []; Mock.alarms := ["alA"] |});
        [vm_compute; reflexivity|].
      apply deleted_nil. }
  destruct (delete_entity_cascade 2 1 Mock.enA Mock.world0 _ _ _ _ Hq)
    as (Hchecks & _ & _).
  destruct (Hchecks _ _ _ Htype Hlisted ltac:(lia)) as (Hrun & Hall & _).
  split; [exact Hrun|exact Hall].
Defined.

(** ** Runs of the further properties *)

Lemma parse_body_empty_or_untyped_witness :
  parse_body {| status := OK; headers := ∅; body := "" |} = Return JNull /\
  parse_body {| status := OK; headers := ∅; body := "page1" |}
    = Raise (LibcloudError "Missing content-type header").
Proof.
  split.
  - apply (proj1 (parse_body_empty_or_untyped
                    {| status := OK; headers := ∅; body := "" |})).
    reflexivity.
  - apply (proj2 (parse_body_empty_or_untyped
                    {| status := OK; headers := ∅; body := "page1" |})).
    + simpl. discriminate.
    + vm_compute. reflexivity.
    + vm_compute. reflexivity.
Defined.

Lemma parse_body_by_media_type_witness :
  parse_body {| status := OK;
                headers := {["content-type" := "application/json; charset=UTF-8"]};
                body := "page1" |}
  = Return (Mock.page [JStr "a1"; JStr "a2"] (JStr "abc")).
Proof.
  rewrite (parse_body_by_media_type
             {| status := OK;
                headers := {["content-type" := "application/json; charset=UTF-8"]};
                body := "page1" |}
             "application/json; charset=UTF-8" "application/json").
  - vm_compute. reflexivity.
  - simpl. discriminate.
  - left. vm_compute. reflexivity.
  - reflexivity.
  - right. exists " charset=UTF-8". reflexivity.
Defined.

Lemma parse_body_raises_only_witness :
  let r := {| status := OK; headers := Mock.json_headers; body := "garbage" |} in
  let e := MalformedResponseError "Failed to parse JSON" "garbage" in
  (e = LibcloudError "Missing content-type header" /\
   body r <> "" /\
   headers r !! "content-type" = None /\ headers r !! "Content-Type" = None) \/
  (e = MalformedResponseError "Failed to parse JSON" (body r) /\
   json_loads (body r) = None).
Proof.
  intros r e.
  assert (Hraise : parse_body r = Raise e) by (vm_compute; reflexivity).
  exact (parse_body_raises_only r e Hraise).
Defined.

Lemma parse_error_bad_request_malformed_witness :
  parse_error {| status := BAD_REQUEST; headers := Mock.json_headers;
                 body := "page1" |}
  = Raise (KeyError "message").
Proof.
  assert (Hbody : json_body
            {| status := BAD_REQUEST; headers := Mock.json_headers;
               body := "page1" |}
            (JObj (list_to_map
               [("values", JArr [JStr "a1"; JStr "a2"]);
                ("metadata", JObj {["next_marker" := JStr "abc"]})]))).
  { split; [simpl; discriminate|]. split; vm_compute; reflexivity. }
  apply (proj2 (proj2 (proj2 (parse_error_bad_request_malformed
           {| status := BAD_REQUEST; headers := Mock.json_headers;
              body := "page1" |} eq_refl))) _ "message" Hbody).
  vm_compute. reflexivity.
Defined.

Lemma parse_error_on_success_witness :
  parse_error {| status := OK; headers := Mock.json_headers; body := "invalid" |}
  = Return Mock.invalid_obj.
Proof.
  rewrite (proj1 (parse_error_on_success
             {| status := OK; headers := Mock.json_headers; body := "invalid" |})).
  - vm_compute. reflexivity.
  - vm_compute. reflexivity.
Defined.

Lemma request_headers_and_payload_witness :
  exists (q : http_request) (a : reply),
    trace (request "/entities" None (JObj {["label" := JStr "x"]}) None "POST"
             false Mock.world0).2 = [(q, a)] /\
    req_data q = JStr "label" /\
    req_headers q !! "Content-Type" = Some "application/json; charset=UTF-8" /\
    req_headers q !! "Accept" = Some "application/json".
Proof.
  destruct (request_headers_and_payload "/entities" None
              (JObj {["label" := JStr "x"]}) None "POST" false Mock.world0)
    as (q & a & Htrace & _ & _ & _ & _ & Haccept & Hwrite & _).
  exists q, a. split; [exact Htrace|].
  destruct (Hwrite (or_introl eq_refl)) as [Hdata Htype].
  split; [|split; [exact Htype|exact Haccept]].
  rewrite Hdata. vm_compute. reflexivity.
Defined.

Lemma get_more_unexpected_status_witness :
  let failing := {| status := 500; headers := Mock.json_headers;
                    body := "invalid" |} in
  (@_get_more Mock.env (const_service failing) json JNull Mock.audits
     (@Build_world (const_service failing) [] tt)).1.1
  = Raise (LibcloudError
             "Unexpected status code: None (url=/audits, details=None)").
Proof.
  intros failing.
  destruct (@get_more_unexpected_status Mock.env (const_service failing) json
              JNull Mock.audits (@Build_world (const_service failing) [] tt) failing tt
              eq_refl ltac:(discriminate) ltac:(discriminate))
    as (_ & _ & Hobj).
  rewrite (Hobj _ eq_refl). vm_compute. reflexivity.
Defined.



Lemma get_more_missing_keys_witness :
  let page := {| status := OK; headers := Mock.json_headers;
                 body := "invalid" |} in
  (@_get_more Mock.env (const_service page) json JNull Mock.audits
     (@Build_world (const_service page) [] tt)).1.1
  = Raise (KeyError "values").
Proof.
  intros page.
  destruct (@get_more_missing_keys Mock.env (const_service page) json
              JNull Mock.audits (@Build_world (const_service page) [] tt) page tt
              eq_refl eq_refl) as (_ & Hvalues & _).
  apply (Hvalues _ (fun audit _ => Return audit) eq_refl eq_refl).
  vm_compute. reflexivity.
Defined.

Lemma url_to_obj_ids_keys_witness :
  (forall k,
     is_Some ((<["check_id" := "chB"]> {["entity_id" := "enA"]}
               : gmap string string) !! k) ->
     k ∈ ["entity_id"; "alarm_id"; "check_id"; "notification_id";
          "notification_plan_id"]) /\
  (size (<["check_id" := "chB"]> {["entity_id" := "enA"]}
         : gmap string string) <= 5)%nat.
Proof.
  apply (url_to_obj_ids_keys "/v1.0/12345"
           "/v1.0/12345/entities/enA/checks/chB").
  vm_compute. reflexivity.
Defined.

Lemma url_to_obj_ids_trailing_collection_witness :
  _url_to_obj_ids "/v1.0/12345" "/v1.0/12345" = Return ∅ /\
  _url_to_obj_ids "/v1.0/12345" "/v1.0/12345/entities/enA/checks"
    = Raise IndexError.
Proof.
  split.
  - apply (proj1 (url_to_obj_ids_trailing_collection "/v1.0/12345"
                    "/v1.0/12345" [] ∅ "checks" "check")).
    reflexivity.
  - apply (proj2 (url_to_obj_ids_trailing_collection "/v1.0/12345"
                    "/v1.0/12345/entities/enA/checks" [("entities", "enA")]
                    {["entity_id" := "enA"]} "checks" "check")).
    + repeat constructor.
    + reflexivity.
    + vm_compute. reflexivity.
    + vm_compute. reflexivity.
    + reflexivity.
Defined.

Lemma url_to_obj_ids_last_wins_witness :
  _url_to_obj_ids "/v1.0/12345" "/v1.0/12345/entities/enA/entities/enB"
  = Return {["entity_id" := "enB"]}.
Proof.
  rewrite (url_to_obj_ids_last_wins "/v1.0/12345"
             "/v1.0/12345/entities/enA/entities/enB" [("entities", "enA")]
             "entities" "enB" "entity" {["entity_id" := "enA"]}).
  - vm_compute. reflexivity.
  - repeat constructor.
  - reflexivity.
  - reflexivity.
  - reflexivity.
  - vm_compute. reflexivity.
  - vm_compute. reflexivity.
Defined.

Lemma check_kwarg_to_data_clean_witness :
  exists data,
    _check_kwarg_to_data (<["junk" := JNum 1]> {["label" := JStr "ping"]})
      = Return data /\
    data !! "label" = Some (JStr "ping") /\
    is_None (JStr "ping") = false /\
    "label" ∈ ["who"; "why"; "label"; "timeout"; "period";
               "monitoring_zones_poll"; "target_alias"; "target_resolver";
               "type"; "details"].
Proof.
  destruct (check_kwarg_to_data_clean
              (<["junk" := JNum 1]> {["label" := JStr "ping"]}))
    as (data & Hrun & Hclean).
  assert (Hlabel : data !! "label" = Some (JStr "ping")).
  { pose proof (check_kwarg_to_data_eq
                  (<["junk" := JNum 1]> {["label" := JStr "ping"]})) as Heq.
    assert (Hdata : data = without_None
                      (check_fields
                         (<["junk" := JNum 1]> {["label" := JStr "ping"]})))
      by congruence.
    rewrite Hdata, without_None_lookup.
    rewrite (proj1 (proj2 (proj2 (check_fields_lookup _)))).
    vm_compute. reflexivity. }
  exists data. split; [exact Hrun|]. split; [exact Hlabel|].
  exact (Hclean "label" (JStr "ping") Hlabel).
Defined.

Lemma check_kwarg_to_data_defaults_witness :
  exists data,
    _check_kwarg_to_data (<["timeout" := JNull]> {["label" := JStr "ping"]})
      = Return data /\
    data !! "timeout" = None /\
    data !! "period" = Some (JNum 30) /\
    data !! "label" = Some (JStr "ping").
Proof.
  destruct (check_kwarg_to_data_defaults
              (<["timeout" := JNull]> {["label" := JStr "ping"]}))
    as (data & Hrun & Htimeout & Hperiod & _ & _ & Hother).
  exists data. split; [exact Hrun|]. split; [|split].
  - rewrite Htimeout. vm_compute. reflexivity.
  - rewrite Hperiod. vm_compute. reflexivity.
  - rewrite (Hother "label") by (do 2 right; left).
    vm_compute. reflexivity.
Defined.

Lemma to_entity_addresses_witness :
  _to_entity (Shop.entity_obj "enA") (entity_ctx None)
  = Return {| Entity.id := JStr "enA"; Entity.label := JStr "web";
              Entity.extra := JObj ∅;
              Entity.ip_addresses := [("default", JStr "10.0.0.1")] |}.
Proof.
  unfold Shop.entity_obj.
  match goal with
  | |- _to_entity (JObj ?o) _ = _ =>
      assert (Hid : o !! "id" = Some (JStr "enA")) by (vm_compute; reflexivity);
      assert (Hlabel : o !! "label" = Some (JStr "web"))
        by (vm_compute; reflexivity);
      assert (Hmeta : o !! "metadata" = Some (JObj ∅))
        by (vm_compute; reflexivity);
      assert (Hip : o !! "ip_addresses"
                    = Some (JObj {["default" := JStr "10.0.0.1"]}))
        by (vm_compute; reflexivity);
      rewrite (proj1 (proj2 (proj2 (to_entity_addresses o (entity_ctx None)
                 _ _ _ Hid Hlabel Hmeta))) _ Hip)
  end.
  vm_compute. reflexivity.
Defined.

Lemma to_overview_obj_children_witness :
  exists ov,
    _to_overview_obj Shop.overview_obj (entity_ctx None) = Return ov /\
    List.length (Overview.checks ov) = 2%nat /\
    List.length (Overview.alarms ov) = 1%nat /\
    Forall (fun c => Check.entity_id c = JStr "enA") (Overview.checks ov) /\
    Forall (fun a => Alarm.entity_id a = JStr "enA") (Overview.alarms ov).
Proof.
  assert (Hrun : exists ov,
            _to_overview_obj Shop.overview_obj (entity_ctx None) = Return ov /\
            Entity.id (Overview.entity ov) = JStr "enA" /\
            List.length (Overview.checks ov) = 2%nat /\
            List.length (Overview.alarms ov) = 1%nat).
  { eexists. split; [vm_compute; reflexivity|]. by repeat split. }
  destruct Hrun as (ov & Hov & Hid & Hchecks & Halarms).
  destruct (to_overview_obj_children Shop.overview_obj (entity_ctx None) ov Hov)
    as [Hc Ha].
  rewrite Hid in Hc, Ha.
  exists ov. split; [exact Hov|]. split; [exact Hchecks|].
  split; [exact Halarms|]. split; [exact Hc|exact Ha].
Defined.

Lemma delete_entity_reraises_witness :
  (delete_entity 1 Mock.enA false Mock.world0).1
  = Raise (RackspaceMonitoringValidationError
             (JNum 400) (JStr "childrenExistError")
             (JStr "Cannot delete an entity that has children")
             (JObj {["type" := JStr "Check"]})) /\
  Mock.calls (delete_entity 1 Mock.enA false Mock.world0).2
  = [("DELETE", "/entities/enA")].
Proof.
  rewrite (delete_entity_reraises 0 Mock.enA false Mock.world0
             (JNum 400) (JStr "childrenExistError")
             (JStr "Cannot delete an entity that has children")
             (JStr "Check") {["type" := JStr "Check"]} (server Mock.world0)).
  - split; vm_compute; reflexivity.
  - vm_compute. reflexivity.
  - vm_compute. reflexivity.
  - left. reflexivity.
Defined.

Lemma delete_entity_details_without_type_witness :
  let e := RackspaceMonitoringValidationError
             (JNum 400) (JStr "childrenExistError") (JStr "children")
             (JObj ∅) in
  (@delete_entity Mock.env (raising_service e) 1 Mock.enA true
     (@Build_world (raising_service e) [] tt)).1
  = Raise (KeyError "type").
Proof.
  intros e.
  destruct (@delete_entity_details_without_type Mock.env (raising_service e)
              0 Mock.enA true (@Build_world (raising_service e) [] tt)
              (JNum 400) (JStr "childrenExistError") (JStr "children")
              (JObj ∅) tt eq_refl) as [Hkey _].
  rewrite (Hkey ∅ eq_refl ltac:(vm_compute; reflexivity)). reflexivity.
Defined.

Lemma delete_entity_answered_witness :
  let kept := {| status := OK; headers := ∅; body := "" |} in
  (@delete_entity Mock.env (const_service kept) 1 Mock.enA false
     (@Build_world (const_service kept) [] tt)).1
  = Return false.
Proof.
  intros kept.
  destruct (@delete_entity_answered Mock.env (const_service kept)
              0 Mock.enA false (@Build_world (const_service kept) [] tt)
              (Responded kept) tt eq_refl) as [Hresp _].
  rewrite (Hresp kept eq_refl). reflexivity.
Defined.

Section Shop_runs.
#[local] Existing Instance Shop.env.
#[local] Existing Instance Shop.service.
#[local] Existing Instance Shop.base.

Lemma create_check_then_get_witness :
  let run := create_check "/v1.0/12345" Mock.enA
               (<["label" := JStr "ping"]> {["type" := JStr "remote.ping"]})
               Shop.world0 in
  Check.id <$> (match run.1 with Return c => Some c | _ => None end)
    = Some (JStr "chNew") /\
  Shop.calls run.2
  = [("POST", "/entities/enA/checks"); ("GET", "/entities/enA/checks/chNew")].
Proof.
  intros run. subst run.
  rewrite (create_check_then_get "/v1.0/12345" Mock.enA
             (<["label" := JStr "ping"]> {["type" := JStr "remote.ping"]})
             Shop.world0
             {| status := CREATED;
                headers := {["location" :=
                  "/v1.0/12345/entities/enA/checks/chNew"]};
                body := "" |} tt
             "/v1.0/12345/entities/enA/checks/chNew" "enA" "chNew").
  - split; vm_compute; reflexivity.
  - vm_compute. reflexivity.
  - reflexivity.
  - vm_compute. reflexivity.
  - discriminate.
  - reflexivity.
  - reflexivity.
  - reflexivity.
Defined.

Lemma create_notification_plan_then_get_witness :
  let run := create_notification_plan "/v1.0/12345"
               {["label" := JStr "plan"]} Shop.world0 in
  NotificationPlan.id <$> (match run.1 with Return p => Some p | _ => None end)
    = Some (JStr "npA") /\
  Shop.calls run.2
  = [("POST", "/notification_plans"); ("GET", "/notification_plans/npA")].
Proof.
  intros run. subst run.
  rewrite (create_notification_plan_then_get "/v1.0/12345"
             {["label" := JStr "plan"]} Shop.world0
             {| status := CREATED;
                headers := {["location" := "/v1.0/12345/notification_plans/npA"]};
                body := "" |} tt
             "/v1.0/12345/notification_plans/npA" "npA").
  - split; vm_compute; reflexivity.
  - vm_compute. reflexivity.
  - reflexivity.
  - vm_compute. reflexivity.
  - discriminate.
  - reflexivity.
  - reflexivity.
Defined.
End Shop_runs.
